(** * Biogas Production Predictor: a shallow embedding of [app.py]

    The application is the Gradio front-end [app.py].  Its two request
    handlers are [predict_biogas] (one scenario) and [batch_predict] (a CSV
    of scenarios).  Both read module-level globals that are set once at
    import time: [model], [feature_names] (and [feature_stats],
    [performance_metrics]) and [explainer].

    Modelling choices:
    - Python [float] values that the handlers compute with (predictions,
      derived metrics, batch statistics) are Rocq's primitive binary64
      floats, whose operations are IEEE 754 round-to-nearest, as Python's.
    - The SHAP contributions are only compared through [abs] and [<]
      by [sorted]; they are finite floats (the explainer of a tree model on
      slider values), whose order embeds exactly into [Q], so they are
      modelled as rationals.
    - Side effects are threaded through a small state-and-exception monad
      [M] over a [world]: the text printed on stdout, the files written
      with [to_csv], and a log of every call of the predictor and of the
      explainer.  A Python exception is [Raise e]; [try/except Exception]
      is [catch]. *)

From Stdlib Require Import List String Bool Arith Lia ZArith QArith Qabs.
From Stdlib Require Import Floats Sorted Uint63.
Import ListNotations.

Open Scope string_scope.
Open Scope list_scope.
Set Warnings "-inexact-float".

(** ** Exceptions, effects and the monad *)

Inductive exn : Type :=
| KeyError (key : string)          (** a missing key of a dict *)
| KeyErrorNoneOf (key : list string)
    (** [df[cols]] when none of [cols] is a column *)
| KeyErrorNotInIndex (missing : list string)
    (** [df[cols]] when some of [cols] are not columns *)
| IndexError                       (** [shap_values[0]] on an empty array *)
| ValueError (msg : string)        (** e.g. numpy reductions of empty arrays *)
| ParserError (msg : string)       (** [pd.read_csv] rejected the file *)
| LibraryError (msg : string).     (** anything raised inside LightGBM or SHAP *)

Inductive outcome (A : Type) : Type :=
| Ok (a : A)
| Raise (e : exn).
Arguments Ok {A} a.
Arguments Raise {A} e.

(** Python floats, and a pandas [DataFrame] read from a CSV file: its
    header and its rows of cells (the feature columns are numeric). *)
Definition pyfloat := PrimFloat.float.

Record table : Type := mkTable {
  columns : list string;
  rows : list (list pyfloat)
}.

(** Observable calls into the third-party libraries. *)
Inductive event : Type :=
| CallPredict      (** [model.predict(...)] *)
| CallExplain.     (** [explainer.shap_values(...)] *)

Record world : Type := mkWorld {
  stdout : list string;
  files : list (string * table);   (** written by [DataFrame.to_csv] *)
  calls : list event
}.

Definition M (A : Type) : Type := world -> outcome A * world.

Definition ret {A} (a : A) : M A := fun w => (Ok a, w).

Definition bind {A B} (m : M A) (k : A -> M B) : M B :=
  fun w => match m w with
           | (Ok a, w') => k a w'
           | (Raise e, w') => (Raise e, w')
           end.

Definition raise {A} (e : exn) : M A := fun w => (Raise e, w).

(** [try: m  except Exception as e: h e] *)
Definition catch {A} (m : M A) (h : exn -> M A) : M A :=
  fun w => match m w with
           | (Ok a, w') => (Ok a, w')
           | (Raise e, w') => h e w'
           end.

Definition lift {A} (o : outcome A) : M A :=
  fun w => (o, w).

Definition print (s : string) : M unit :=
  fun w => (Ok tt, mkWorld (stdout w ++ [s]) (files w) (calls w)).

Definition log_call (ev : event) : M unit :=
  fun w => (Ok tt, mkWorld (stdout w) (files w) (calls w ++ [ev])).

Notation "x <- m ;; k" := (bind m (fun x => k))
  (at level 61, m at next level, right associativity).
Notation "m ;;; k" := (bind m (fun _ => k))
  (at level 61, right associativity).

Fixpoint mapM {A B} (f : A -> M B) (l : list A) : M (list B) :=
  match l with
  | [] => ret []
  | x :: t => y <- f x ;; ys <- mapM f t ;; ret (y :: ys)
  end.

(** ** Derived metrics (app.py lines 94-97 and 109) *)

Record derived_metrics : Type := mkDerived {
  daily_energy : pyfloat;        (** [prediction * 6.5] *)
  annual_production : pyfloat;   (** [prediction * 365 / 1000] *)
  vs_average : pyfloat;          (** [prediction - 79.21] *)
  vs_average_pct : pyfloat       (** [vs_average/79.21*100], line 109 *)
}.

Definition derive (prediction : pyfloat) : derived_metrics :=
  let daily_energy := (prediction * 6.5)%float in
  let annual_production := (prediction * 365 / 1000)%float in
  let vs_average := (prediction - 79.21)%float in
  mkDerived daily_energy annual_production vs_average
            (vs_average / 79.21 * 100)%float.

Definition write_csv (name : string) (df : table) : M unit :=
  fun w => (Ok tt, mkWorld (stdout w) (files w ++ [(name, df)]) (calls w)).

(** ** The module-level globals (app.py lines 23-45)

    [model] is [None] exactly when loading failed; [feature_names] is
    then [None] as well, but it is never read in that state.  A predictor
    maps the values of one row, in [feature_names] order, to
    [model.predict(df)[0]]; an explainer maps them to the array returned
    by [explainer.shap_values(df)], of shape (n,) or (1, n). *)

Definition predictor := list pyfloat -> outcome pyfloat.

Inductive shap_array : Type :=
| Shap1 (vals : list Q)
| Shap2 (rows : list (list Q)).

Definition shap_explainer := list pyfloat -> outcome shap_array.

Record globals : Type := mkGlobals {
  model : option predictor;
  feature_names : list string;
  explainer : option shap_explainer
}.

(** ** Column selection *)

Fixpoint lookup (k : string) (d : list (string * pyfloat)) : option pyfloat :=
  match d with
  | [] => None
  | (k', v) :: t => if String.eqb k k' then Some v else lookup k t
  end.

Definition mem (s : string) (l : list string) : bool :=
  existsb (String.eqb s) l.

Fixpoint dedup (l : list string) : list string :=
  match l with
  | [] => []
  | x :: t => x :: filter (fun y => negb (String.eqb x y)) (dedup t)
  end.

(** [df[names]] on a one-row frame when every name is a column: the
    values in [names] order. *)
Fixpoint take_columns (d : list (string * pyfloat)) (names : list string)
  : option (list pyfloat) :=
  match names with
  | [] => Some []
  | n :: t =>
      match lookup n d with
      | None => None
      | Some v =>
          match take_columns d t with
          | Some vs => Some (v :: vs)
          | None => None
          end
      end
  end.

Definition is_missing (d : list (string * pyfloat)) (n : string) : bool :=
  match lookup n d with
  | None => true
  | Some _ => false
  end.

(** [df[names]]: when some names are not columns, pandas
    ([Index._raise_if_missing]) raises one [KeyError]: "None of [...] are
    in the [columns]" with the whole key when no name is a column, and
    otherwise "[...] not in index" with the missing names, once each, in
    key order. *)
Definition select (d : list (string * pyfloat)) (names : list string)
  : outcome (list pyfloat) :=
  match take_columns d names with
  | Some vs => Ok vs
  | None =>
      if forallb (is_missing d) names then Raise (KeyErrorNoneOf names)
      else Raise (KeyErrorNotInIndex (dedup (filter (is_missing d) names)))
  end.

Definition call_predict (m : predictor) (x : list pyfloat) : M pyfloat :=
  log_call CallPredict ;;; lift (m x).

Definition call_explain (ex : shap_explainer) (x : list pyfloat)
  : M shap_array :=
  log_call CallExplain ;;; lift (ex x).

(** ** Single prediction: [predict_biogas] (app.py lines 51-186) *)

(** The keys of [input_data] (lines 67-86), in the order of the
    function's parameters. *)
Definition input_names : list string :=
  [ "Pig Manure (kg)"; "Kitchen Food Waste (kg)"; "Chicken Litter (kg)";
    "Cassava (kg)"; "Bagasse Feed (kg)"; "Energy Grass (kg)";
    "Banana Shafts (kg)"; "Alcohol Waste (kg)"; "Municipal Residue (kg)";
    "Fish Waste (kg)"; "Water (L)"; "Diesel (L)"; "Electricity Use (kWh)";
    "C/N Ratio"; "Digester Temp (C)"; "Temperature (C)"; "Humidity (%)";
    "Rainfall (mm)" ].

(** [input_data]: the 18 slider values keyed by feature name. *)
Definition input_data (args : list pyfloat) : list (string * pyfloat) :=
  combine input_names args.

(** A Python dict of [str -> float] as its items in insertion order:
    assigning an existing key keeps its position. *)
Fixpoint dict_set (d : list (string * Q)) (k : string) (v : Q)
  : list (string * Q) :=
  match d with
  | [] => [(k, v)]
  | (k', v') :: t =>
      if String.eqb k k' then (k, v) :: t else (k', v') :: dict_set t k v
  end.

(** [{name: float(val) for name, val in zip(feature_names, vals)}] *)
Definition shap_dict (names : list string) (vals : list Q)
  : list (string * Q) :=
  fold_left (fun d nv => dict_set d (fst nv) (snd nv)) (combine names vals) [].

(** lines 127-130: a 1-d array is used as it is, otherwise its row 0. *)
Definition shap_row (sv : shap_array) : outcome (list Q) :=
  match sv with
  | Shap1 vals => Ok vals
  | Shap2 [] => Raise IndexError
  | Shap2 (r :: _) => Ok r
  end.

(** [sorted(items, key=lambda x: abs(x[1]), reverse=True)]: Python's sort
    is stable, also with [reverse=True], so items of equal key keep their
    order.  Insertion sort that puts a new item after every item whose key
    is not smaller computes exactly that list. *)
Definition sort_key (p : string * Q) : Q := Qabs (snd p).

Fixpoint insert_desc (x : string * Q) (l : list (string * Q))
  : list (string * Q) :=
  match l with
  | [] => [x]
  | y :: t =>
      if Qlt_le_dec (sort_key y) (sort_key x) then x :: y :: t
      else y :: insert_desc x t
  end.

Definition sorted_by_abs_desc (items : list (string * Q)) : list (string * Q) :=
  fold_left (fun acc x => insert_desc x acc) items [].

(** line 133: [sorted(...)[:10]] *)
Definition top_shap (items : list (string * Q)) : list (string * Q) :=
  firstn 10 (sorted_by_abs_desc items).

Inductive color : Type := Green | Red.   (** '#2E7D32' and '#C62828' *)

(** The two Plotly charts, by the data they plot. *)
Inductive figure : Type :=
| Waterfall (items : list (string * Q))           (** lines 136-147 *)
| Bar (bars : list (string * Q * color)).          (** lines 159-166 *)

Definition bar_of (sorted_shap : list (string * Q)) : figure :=
  Bar (map (fun it => (fst it, Qabs (snd it),
                       if Qlt_le_dec 0 (snd it) then Green else Red))
           sorted_shap).

(** The markdown [result_text], by the values it renders. *)
Inductive single_text : Type :=
| NotLoadedMsg                                  (** line 63 *)
| ResultText (prediction : pyfloat) (dm : derived_metrics)   (** 100-119 *)
| PredictionErrorMsg (e : exn).                 (** line 186 *)

Definition single_result : Type :=
  single_text * option figure * option figure.

Definition dquote : string := String (Ascii.ascii_of_nat 34) EmptyString.

(** The repr of a list of strings without quotes or backslashes. *)
Fixpoint list_repr_items (l : list string) : string :=
  match l with
  | [] => ""
  | [x] => String.append "'" (String.append x "'")
  | x :: t => String.append "'" (String.append x
                (String.append "', " (list_repr_items t)))
  end.

(** [str(e)]; [str] of a [KeyError] is the repr of its argument (the
    [Index] of "None of" is shown on one line, as pandas does for a short
    key). *)
Definition exn_str (e : exn) : string :=
  match e with
  | KeyError k => String.append "'" (String.append k "'")
  | KeyErrorNoneOf key =>
      String.append dquote (String.append "None of [Index(["
        (String.append (list_repr_items key)
          (String.append "], dtype='object')] are in the [columns]" dquote)))
  | KeyErrorNotInIndex miss =>
      String.append dquote (String.append "["
        (String.append (list_repr_items miss) (String.append "] not in index" dquote)))
  | IndexError => "index 0 is out of bounds for axis 0 with size 0"
  | ValueError m | ParserError m | LibraryError m => m
  end.

Definition predict_biogas (g : globals) (args : list pyfloat)
  : M single_result :=
  match model g with
  | None => ret (NotLoadedMsg, None, None)
  | Some m =>
      catch
        (input_df <- lift (select (input_data args) (feature_names g)) ;;
         prediction <- call_predict m input_df ;;
         let result_text := ResultText prediction (derive prediction) in
         match explainer g with
         | Some ex =>
             catch
               (shap_values <- call_explain ex input_df ;;
                vals <- lift (shap_row shap_values) ;;
                let sorted_shap :=
                  top_shap (shap_dict (feature_names g) vals) in
                ret (result_text, Some (Waterfall sorted_shap),
                     Some (bar_of sorted_shap)))
               (fun e =>
                  print (String.append "SHAP calculation error: " (exn_str e)) ;;;
                  ret (result_text, None, None))
         | None => ret (result_text, None, None)
         end)
        (fun e => ret (PredictionErrorMsg e, None, None))
  end.

(** ** numpy reductions over a float64 array *)

Definition fzero : pyfloat := 0%float.

Definition float_of_nat (n : nat) : pyfloat :=
  PrimFloat.of_uint63 (Uint63.of_Z (Z.of_nat n)).

Fixpoint chunks8 (fuel : nat) (l : list pyfloat) : list (list pyfloat) :=
  match fuel with
  | O => []
  | S f => match l with
           | [] => []
           | _ => firstn 8 l :: chunks8 f (skipn 8 l)
           end
  end.

(** numpy's [pairwise_sum] (loops_utils.h): fewer than 8 elements are
    added in order from [0.]; up to 128 elements use 8 running
    accumulators over the whole blocks of 8, combined as
    [((r0+r1)+(r2+r3))+((r4+r5)+(r6+r7))], then the remaining elements
    in order; longer arrays are split at [n/2] rounded down to a multiple
    of 8. *)
Fixpoint pairwise_sum (fuel : nat) (a : list pyfloat) : pyfloat :=
  let n := List.length a in
  if Nat.ltb n 8 then fold_left PrimFloat.add a fzero
  else if Nat.leb n 128 then
    let whole := (n - n mod 8)%nat in
    match chunks8 whole (firstn whole a) with
    | [] => fzero
    | r0 :: blocks =>
        let r := fold_left (fun r blk => map (fun p => (fst p + snd p)%float)
                                               (combine r blk)) blocks r0 in
        let res :=
          match r with
          | [x0; x1; x2; x3; x4; x5; x6; x7] =>
              (((x0 + x1) + (x2 + x3)) + ((x4 + x5) + (x6 + x7)))%float
          | _ => fzero
          end in
        fold_left PrimFloat.add (skipn whole a) res
    end
  else
    match fuel with
    | O => fzero
    | S f =>
        let n2 := (n / 2 - (n / 2) mod 8)%nat in
        (pairwise_sum f (firstn n2 a) + pairwise_sum f (skipn n2 a))%float
    end.

(** [np.add.reduce]: the identity [0.] plus the pairwise sum. *)
Definition np_sum (a : list pyfloat) : pyfloat :=
  (fzero + pairwise_sum (List.length a) a)%float.

(** [np.mean]: the sum divided by the count; an empty array gives [nan]
    with a RuntimeWarning, which [warnings.filterwarnings('ignore')]
    silences. *)
Definition np_mean (a : list pyfloat) : pyfloat :=
  (np_sum a / float_of_nat (List.length a))%float.

(** [np.std] with [ddof=0]: [sqrt(mean(|x - mean(x)|**2))]. *)
Definition np_std (a : list pyfloat) : pyfloat :=
  let mu := np_mean a in
  let sq := map (fun x => ((x - mu) * (x - mu))%float) a in
  PrimFloat.sqrt (np_sum sq / float_of_nat (List.length a))%float.

(** [np.minimum] and [np.maximum] on floats propagate [nan]. *)
Definition fminimum (x y : pyfloat) : pyfloat :=
  if (x <=? y)%float || PrimFloat.is_nan x then x else y.

Definition fmaximum (x y : pyfloat) : pyfloat :=
  if (y <=? x)%float || PrimFloat.is_nan x then x else y.

(** [np.min] / [np.max]: reductions without identity; an empty array
    raises [ValueError]. *)
Definition np_min (a : list pyfloat) : outcome pyfloat :=
  match a with
  | [] => Raise (ValueError
           "zero-size array to reduction operation minimum which has no identity")
  | x :: t => Ok (fold_left fminimum t x)
  end.

Definition np_max (a : list pyfloat) : outcome pyfloat :=
  match a with
  | [] => Raise (ValueError
           "zero-size array to reduction operation maximum which has no identity")
  | x :: t => Ok (fold_left fmaximum t x)
  end.

(** ** Batch prediction: [batch_predict] (app.py lines 192-243) *)

(** An uploaded file, by what [pd.read_csv(file.name)] makes of it. *)
Record upload : Type := mkUpload {
  read_result : outcome table
}.

Definition read_csv (f : upload) : M table := lift (read_result f).


(** [set(feature_names) - set(df.columns)], as the list of its elements. *)
Definition missing_columns (names cols : list string) : list string :=
  dedup (filter (fun n => negb (mem n cols)) names).

(** [pd.DataFrame([row[feature_names]])] followed by [model.predict(...)[0]]. *)
Definition predict_row (m : predictor) (names cols : list string)
  (r : list pyfloat) : M pyfloat :=
  x <- lift (select (combine cols r) names) ;;
  call_predict m x.

Fixpoint index_of (s : string) (l : list string) : nat :=
  match l with
  | [] => 0
  | x :: t => if String.eqb s x then 0 else S (index_of s t)
  end.

Fixpoint set_nth {A} (i : nat) (v : A) (l : list A) : list A :=
  match i, l with
  | _, [] => []
  | O, _ :: t => v :: t
  | S j, x :: t => x :: set_nth j v t
  end.

(** [df[name] = vals] with [len(vals) == len(df)]: an existing column is
    overwritten in place, otherwise a new last column is added. *)
Definition assign_column (df : table) (name : string) (vals : list pyfloat)
  : table :=
  if mem name (columns df) then
    mkTable (columns df)
      (map (fun rv => set_nth (index_of name (columns df)) (snd rv) (fst rv))
           (combine (rows df) vals))
  else
    mkTable (columns df ++ [name])
      (map (fun rv => fst rv ++ [snd rv]) (combine (rows df) vals)).

Record summary : Type := mkSummary {
  total : nat;
  s_mean : pyfloat;
  s_std : pyfloat;
  s_min : pyfloat;
  s_max : pyfloat;
  s_range : pyfloat
}.

(** The f-string of lines 221-234, its expressions evaluated in order. *)
Definition summarize (n : nat) (predictions : list pyfloat) : M summary :=
  let mean := np_mean predictions in
  let std := np_std predictions in
  mn <- lift (np_min predictions) ;;
  mx <- lift (np_max predictions) ;;
  mx' <- lift (np_max predictions) ;;
  mn' <- lift (np_min predictions) ;;
  ret (mkSummary n mean std mn mx (mx' - mn')%float).

Inductive batch_text : Type :=
| BatchNotLoadedMsg                      (** line 196 *)
| NoFileMsg                              (** line 199 *)
| MissingColumnsMsg (cols : list string) (** line 208 *)
| SummaryText (s : summary)              (** lines 221-234 *)
| FileErrorMsg (e : exn).                (** line 243 *)

Definition output_file : string := "biogas_predictions.csv".

Definition prediction_column : string := "Predicted_Biogas_m3".

Definition batch_predict (g : globals) (file : option upload)
  : M (batch_text * option string) :=
  match model g with
  | None => ret (BatchNotLoadedMsg, None)
  | Some m =>
      match file with
      | None => ret (NoFileMsg, None)
      | Some f =>
          catch
            (df <- read_csv f ;;
             let missing_cols := missing_columns (feature_names g) (columns df) in
             match missing_cols with
             | _ :: _ => ret (MissingColumnsMsg missing_cols, None)
             | [] =>
                 predictions <- mapM (predict_row m (feature_names g) (columns df))
                                     (rows df) ;;
                 let df' := assign_column df prediction_column predictions in
                 s <- summarize (List.length (rows df')) predictions ;;
                 write_csv output_file df' ;;;
                 ret (SummaryText s, Some output_file)
             end)
            (fun e => ret (FileErrorMsg e, None))
      end
  end.

(** ** Import time: loading the artifacts (app.py lines 21-45) *)

(** The three mappings of [feature_stats.pkl], keyed by feature name. *)
Record feature_stats : Type := mkStats {
  means : list (string * pyfloat);
  mins : list (string * pyfloat);
  maxs : list (string * pyfloat)
}.

Definition metrics := list (string * pyfloat).

(** What each [joblib.load] returns or raises, and what
    [shap.TreeExplainer(model)] returns or raises. *)
Record artifacts : Type := mkArtifacts {
  load_model : outcome predictor;
  load_feature_names : outcome (list string);
  load_feature_stats : outcome feature_stats;
  load_performance_metrics : outcome metrics;
  load_shap_explainer : outcome shap_explainer;
  tree_explainer : predictor -> outcome shap_explainer
}.

(** The module globals after line 45; [None] is Python's [None]. *)
Record module_state : Type := mkState {
  st_model : option predictor;
  st_feature_names : option (list string);
  st_feature_stats : option feature_stats;
  st_performance_metrics : option metrics;
  st_explainer : option shap_explainer
}.

Definition load_core (a : artifacts)
  : M (option (predictor * list string * feature_stats * metrics)) :=
  catch
    (m <- lift (load_model a) ;;
     fn <- lift (load_feature_names a) ;;
     fs <- lift (load_feature_stats a) ;;
     pm <- lift (load_performance_metrics a) ;;
     print "✅ Model loaded successfully" ;;;
     ret (Some (m, fn, fs, pm)))
    (fun e => print (String.append "❌ Error loading model: " (exn_str e)) ;;;
              ret None).

(** Lines 36-45: a bare [except:] around the pickled explainer; an
    exception of [TreeExplainer] inside the handler is not caught. *)
Definition load_explainer (a : artifacts) (model : option predictor)
  : M (option shap_explainer) :=
  catch
    (ex <- lift (load_shap_explainer a) ;;
     print "✅ SHAP explainer loaded" ;;;
     ret (Some ex))
    (fun _ =>
       match model with
       | Some m =>
           print "Creating SHAP explainer..." ;;;
           ex <- lift (tree_explainer a m) ;;
           print "✅ SHAP explainer created" ;;;
           ret (Some ex)
       | None => ret None
       end).

Definition load_globals (a : artifacts) : M module_state :=
  print "Loading model files..." ;;;
  core <- load_core a ;;
  match core with
  | Some (m, fn, fs, pm) =>
      ex <- load_explainer a (Some m) ;;
      ret (mkState (Some m) (Some fn) (Some fs) (Some pm) ex)
  | None =>
      ex <- load_explainer a None ;;
      ret (mkState None None None None ex)
  end.

(** The globals the two handlers read.  [feature_names] is [None] only
    together with [model], and the handlers test [model] first. *)
Definition to_globals (st : module_state) : globals :=
  mkGlobals (st_model st)
            (match st_feature_names st with Some fn => fn | None => [] end)
            (st_explainer st).

(** ** Import time: slider ranges and the CSV template (lines 249-407) *)

Definition fallback_defaults : list (string * pyfloat) :=
  [ ("Pig Manure (kg)", 25.10%float); ("Kitchen Food Waste (kg)", 17.95%float);
    ("Chicken Litter (kg)", 12.01%float); ("Cassava (kg)", 20.03%float);
    ("Bagasse Feed (kg)", 15.09%float); ("Energy Grass (kg)", 10.04%float);
    ("Banana Shafts (kg)", 8.01%float); ("Alcohol Waste (kg)", 5.02%float);
    ("Municipal Residue (kg)", 11.99%float); ("Fish Waste (kg)", 5.99%float);
    ("Water (L)", 99.96%float); ("Diesel (L)", 2.00%float);
    ("Electricity Use (kWh)", 25.07%float); ("C/N Ratio", 25.00%float);
    ("Digester Temp (C)", 35.96%float); ("Temperature (C)", 29.98%float);
    ("Humidity (%)", 74.99%float); ("Rainfall (mm)", 4.97%float) ].

(** [{k: 0.0 for k in defaults.keys()}] *)
Definition fallback_mins : list (string * pyfloat) :=
  map (fun kv => (fst kv, 0%float)) fallback_defaults.

Definition fallback_maxs : list (string * pyfloat) :=
  [ ("Pig Manure (kg)", 60.71%float); ("Kitchen Food Waste (kg)", 47.32%float);
    ("Chicken Litter (kg)", 31.29%float); ("Cassava (kg)", 49.15%float);
    ("Bagasse Feed (kg)", 38.56%float); ("Energy Grass (kg)", 25.42%float);
    ("Banana Shafts (kg)", 21.42%float); ("Alcohol Waste (kg)", 12.21%float);
    ("Municipal Residue (kg)", 34.98%float); ("Fish Waste (kg)", 14.42%float);
    ("Water (L)", 217.79%float); ("Diesel (L)", 5.76%float);
    ("Electricity Use (kWh)", 63.79%float); ("C/N Ratio", 36.19%float);
    ("Digester Temp (C)", 42.00%float); ("Temperature (C)", 41.70%float);
    ("Humidity (%)", 111.65%float); ("Rainfall (mm)", 45.72%float) ].

(** Lines 250-301: [(defaults, mins, maxs)]. *)
Definition ui_ranges (st : module_state)
  : list (string * pyfloat) * list (string * pyfloat) * list (string * pyfloat) :=
  match st_feature_stats st with
  | Some fs => (means fs, mins fs, maxs fs)
  | None => (fallback_defaults, fallback_mins, fallback_maxs)
  end.

(** A [gr.Slider(minimum, maximum, value=...)], by its three numbers. *)
Record slider : Type := mkSlider {
  sl_min : pyfloat;
  sl_max : pyfloat;
  sl_value : pyfloat
}.

(** [d[k]] on a dict. *)
Definition getitem (d : list (string * pyfloat)) (k : string) : outcome pyfloat :=
  match lookup k d with
  | Some v => Ok v
  | None => Raise (KeyError k)
  end.

Definition obind {A B} (o : outcome A) (k : A -> outcome B) : outcome B :=
  match o with
  | Ok a => k a
  | Raise e => Raise e
  end.

(** Lines 323-371: one slider per parameter of [predict_biogas], in the
    order of the [inputs] list of [predict_btn.click] (lines 382-391),
    each reading [mins[k]], [maxs[k]] and [defaults[k]] in turn. *)
Fixpoint build_sliders (defaults mins maxs : list (string * pyfloat))
  (names : list string) : outcome (list slider) :=
  match names with
  | [] => Ok []
  | k :: t =>
      obind (getitem mins k) (fun lo =>
      obind (getitem maxs k) (fun hi =>
      obind (getitem defaults k) (fun v =>
      obind (build_sliders defaults mins maxs t) (fun rest =>
      Ok (mkSlider lo hi v :: rest)))))
  end.

(** A dict whose values are floats, as its items in insertion order. *)
Fixpoint dict_put (d : list (string * pyfloat)) (k : string) (v : pyfloat)
  : list (string * pyfloat) :=
  match d with
  | [] => [(k, v)]
  | (k', v') :: t =>
      if String.eqb k k' then (k, v) :: t else (k', v') :: dict_put t k v
  end.

(** One iteration of the dict comprehension: [d[k] = [defaults[k]]]. *)
Definition template_step (defaults : list (string * pyfloat))
  (acc : outcome (list (string * pyfloat))) (k : string)
  : outcome (list (string * pyfloat)) :=
  match acc with
  | Raise e => Raise e
  | Ok d => obind (getitem defaults k) (fun v => Ok (dict_put d k v))
  end.

Inductive import_exn : Type :=
| Uncaught (e : exn)
| TypeError (msg : string)
| GrFileBytesError.
    (** the [TypeError] that [gr.File] raises for a [bytes] value, when it
        turns the value into a path with [Path(value)]; its text depends on
        the Python version *)

(** Lines 405-406: [{feature: [defaults[feature]] for feature in
    feature_names}] and its one-row [DataFrame]. *)
Definition build_template (feature_names : option (list string))
  (defaults : list (string * pyfloat)) : import_exn + table :=
  match feature_names with
  | None => inl (TypeError "'NoneType' object is not iterable")
  | Some fn =>
      match fold_left (template_step defaults) fn (Ok []) with
      | Raise e => inl (Uncaught e)
      | Ok d => inr (mkTable (map fst d) [map snd d])
      end
  end.

Record app : Type := mkApp {
  app_state : module_state;
  app_sliders : list slider;
  app_template : table
}.

(** Line 410: [gr.File(value=template_csv.encode(), ...)].  The
    component's value preprocessing calls [Path(value)], which rejects
    the [bytes] value: whatever the template holds, the call raises. *)
Definition gr_file_value (template : table) : import_exn + unit :=
  inl GrFileBytesError.

(** Importing [app.py] up to the template's [gr.File] (line 410): the
    module either gets past it or dies with an uncaught exception. *)
Definition app_import (a : artifacts) (w : world) : (import_exn + app) * world :=
  match load_globals a w with
  | (Raise e, w') => (inl (Uncaught e), w')
  | (Ok st, w') =>
      let '(defaults, mins, maxs) := ui_ranges st in
      match build_sliders defaults mins maxs input_names with
      | Raise e => (inl (Uncaught e), w')
      | Ok sliders =>
          match build_template (st_feature_names st) defaults with
          | inl e => (inl e, w')
          | inr t =>
              match gr_file_value t with
              | inl e => (inl e, w')
              | inr _ => (inr (mkApp st sliders t), w')
              end
          end
      end
  end.


(** * Properties *)

(** ** The outcome of a computation does not depend on the world *)

Definition world_indep {A} (m : M A) : Prop :=
  forall w1 w2, fst (m w1) = fst (m w2).

Lemma ret_indep {A} (a : A) : world_indep (ret a).
Proof. intros w1 w2; reflexivity. Qed.

Lemma lift_indep {A} (o : outcome A) : world_indep (lift o).
Proof. intros w1 w2; reflexivity. Qed.

Lemma print_indep s : world_indep (print s).
Proof. intros w1 w2; reflexivity. Qed.

Lemma log_call_indep ev : world_indep (log_call ev).
Proof. intros w1 w2; reflexivity. Qed.

Lemma write_csv_indep n df : world_indep (write_csv n df).
Proof. intros w1 w2; reflexivity. Qed.

Lemma bind_indep {A B} (m : M A) (k : A -> M B) :
  world_indep m -> (forall a, world_indep (k a)) -> world_indep (bind m k).
Proof.
  intros Hm Hk w1 w2; unfold bind.
  specialize (Hm w1 w2).
  destruct (m w1) as [[a1|e1] w1'], (m w2) as [[a2|e2] w2'];
    simpl in Hm; try discriminate; inversion Hm; subst; simpl;
    first [apply Hk | reflexivity].
Qed.

Lemma catch_indep {A} (m : M A) (h : exn -> M A) :
  world_indep m -> (forall e, world_indep (h e)) -> world_indep (catch m h).
Proof.
  intros Hm Hh w1 w2; unfold catch.
  specialize (Hm w1 w2).
  destruct (m w1) as [[a1|e1] w1'], (m w2) as [[a2|e2] w2'];
    simpl in Hm; try discriminate; inversion Hm; subst; simpl;
    first [apply Hh | reflexivity].
Qed.

Create HintDb indep.
#[local] Hint Resolve ret_indep lift_indep print_indep log_call_indep
  write_csv_indep bind_indep catch_indep : indep.

Lemma call_predict_indep m x : world_indep (call_predict m x).
Proof. unfold call_predict; auto with indep. Qed.

Lemma call_explain_indep ex x : world_indep (call_explain ex x).
Proof. unfold call_explain; auto with indep. Qed.

#[local] Hint Resolve call_predict_indep call_explain_indep : indep.

Lemma predict_biogas_indep g args : world_indep (predict_biogas g args).
Proof.
  unfold predict_biogas.
  destruct (model g) as [m|]; [|auto with indep].
  apply catch_indep; [|auto with indep].
  apply bind_indep; [auto with indep|intro x].
  apply bind_indep; [auto with indep|intro p].
  destruct (explainer g); auto with indep.
Qed.

(** ** Inversion of [predict_biogas] *)

Lemma predict_biogas_ready g m args w :
  model g = Some m ->
  predict_biogas g args w =
  catch
    (input_df <- lift (select (input_data args) (feature_names g)) ;;
     prediction <- call_predict m input_df ;;
     let result_text := ResultText prediction (derive prediction) in
     match explainer g with
     | Some ex =>
         catch
           (shap_values <- call_explain ex input_df ;;
            vals <- lift (shap_row shap_values) ;;
            let sorted_shap := top_shap (shap_dict (feature_names g) vals) in
            ret (result_text, Some (Waterfall sorted_shap),
                 Some (bar_of sorted_shap)))
           (fun e =>
              print (String.append "SHAP calculation error: " (exn_str e)) ;;;
              ret (result_text, None, None))
     | None => ret (result_text, None, None)
     end)
    (fun e => ret (PredictionErrorMsg e, None, None)) w.
Proof. intros Hm; unfold predict_biogas; rewrite Hm; reflexivity. Qed.

Ltac unfold_monad :=
  unfold catch, bind, lift, call_predict, call_explain, log_call, print, ret
  in *; simpl in *.

Lemma predict_biogas_predicted g m args x p w :
  model g = Some m ->
  select (input_data args) (feature_names g) = Ok x ->
  m x = Ok p ->
  fst (predict_biogas g args w) =
  let result_text := ResultText p (derive p) in
  match explainer g with
  | None => Ok (result_text, None, None)
  | Some ex =>
      match ex x with
      | Raise _ => Ok (result_text, None, None)
      | Ok sv =>
          match shap_row sv with
          | Raise _ => Ok (result_text, None, None)
          | Ok vals =>
              let sorted_shap := top_shap (shap_dict (feature_names g) vals) in
              Ok (result_text, Some (Waterfall sorted_shap),
                  Some (bar_of sorted_shap))
          end
      end
  end.
Proof.
  intros Hm Hsel Hp.
  rewrite (predict_biogas_ready g m args w Hm).
  unfold_monad. rewrite Hsel; simpl. rewrite Hp; simpl.
  destruct (explainer g) as [ex|]; simpl; [|reflexivity].
  destruct (ex x) as [sv|e]; simpl; [|reflexivity].
  destruct (shap_row sv); reflexivity.
Qed.

(** Every text with a prediction comes from a successful call of the
    predictor on the selected features. *)
Lemma predict_biogas_result_inv g args w p dm f1 f2 :
  fst (predict_biogas g args w) = Ok (ResultText p dm, f1, f2) ->
  exists m x,
    model g = Some m /\
    select (input_data args) (feature_names g) = Ok x /\
    m x = Ok p /\ dm = derive p.
Proof.
  intros H.
  destruct (model g) as [m|] eqn:Hm.
  2:{ unfold predict_biogas in H; rewrite Hm in H; unfold_monad; discriminate. }
  destruct (select (input_data args) (feature_names g)) as [x|e] eqn:Hsel.
  2:{ rewrite (predict_biogas_ready g m args w Hm) in H; unfold_monad.
      rewrite Hsel in H; simpl in H; discriminate. }
  destruct (m x) as [p'|e] eqn:Hp.
  2:{ rewrite (predict_biogas_ready g m args w Hm) in H; unfold_monad.
      rewrite Hsel in H; simpl in H; rewrite Hp in H; simpl in H; discriminate. }
  rewrite (predict_biogas_predicted g m args x p' w Hm Hsel Hp) in H.
  simpl in H.
  assert (p' = p /\ derive p' = dm) as [<- <-].
  { destruct (explainer g) as [ex|];
      [destruct (ex x) as [sv|]; [destruct (shap_row sv)|]|];
      inversion H; auto. }
  exists m, x; auto.
Qed.

(** ** Concrete configurations used by the witnesses *)

Definition w0 : world := mkWorld [] [] [].

(** The 18 sliders all at [1.0]. *)
Definition args_ones : list pyfloat := repeat 1%float 18.

(** A loaded model that predicts [v] for every row, without explainer. *)
Definition g_const (v : pyfloat) : globals :=
  mkGlobals (Some (fun _ => Ok v)) input_names None.

(** A loaded model whose explainer raises on every input. *)
Definition g_bad_explainer : globals :=
  mkGlobals (Some (fun _ => Ok 75.5%float)) input_names
            (Some (fun _ => Raise (LibraryError "Model type not yet supported"))).

(** The state after a failed import: every global is [None]. *)
Definition g_unavailable : globals := mkGlobals None [] None.

(** A model that predicts the first feature of its input. *)
Definition first_input : predictor :=
  fun x => match x with
           | v :: _ => Ok v
           | [] => Raise IndexError
           end.

Definition g_first : globals := mkGlobals (Some first_input) input_names None.

(** Three scenarios whose first feature is 3, 1 and 2, without a
    "Predicted_Biogas_m3" column. *)
Definition three_scenarios : table :=
  mkTable input_names
          [3%float :: repeat 1%float 17; 1%float :: repeat 1%float 17;
           2%float :: repeat 1%float 17].

Definition three_upload : upload := mkUpload (Ok three_scenarios).

(** The statistics of the predictions [3.0], [1.0] and [2.0]. *)
Definition summary_three : summary :=
  mkSummary 3 (np_mean [3%float; 1%float; 2%float])
            (np_std [3%float; 1%float; 2%float]) 1%float 3%float 2%float.

(** Solves [Forall2] over the concrete rows of a table, for the
    predictor [first_input]. *)
Ltac concrete_preds :=
  repeat match goal with
  | H : Forall2 _ (_ :: _) _ |- _ => inversion H; subst; clear H
  | H : Forall2 _ [] _ |- _ => inversion H; subst; clear H
  | H : exists x, _ |- _ => destruct H as [? [? ?]]
  | H : select _ _ = Ok _ |- _ => vm_compute in H; injection H as H; subst
  | H : first_input _ = Ok _ |- _ => vm_compute in H; injection H as H; subst
  end.

(** ** C1: derived metrics *)

(** C1: whenever [predict_biogas] reports a prediction [p] (the value the
    predictor returned, zero and negative values included), its derived
    metrics are [p * 6.5], [p * 365 / 1000], [p - 79.21] and
    [(p - 79.21) / 79.21 * 100], evaluated in binary64 as the code does. *)
Theorem predict_biogas_derived_metrics g args w p dm f1 f2 :
  fst (predict_biogas g args w) = Ok (ResultText p dm, f1, f2) ->
  (exists m x, model g = Some m /\
               select (input_data args) (feature_names g) = Ok x /\ m x = Ok p) /\
  daily_energy dm = (p * 6.5)%float /\
  annual_production dm = (p * 365 / 1000)%float /\
  vs_average dm = (p - 79.21)%float /\
  vs_average_pct dm = (vs_average dm / 79.21 * 100)%float.
Proof.
  intros H.
  destruct (predict_biogas_result_inv g args w p dm f1 f2 H)
    as (m & x & Hm & Hsel & Hp & ->).
  split; [exists m, x; auto|].
  repeat split.
Qed.

Lemma predict_biogas_derived_metrics_witness :
  fst (predict_biogas (g_const (-5)%float) args_ones w0)
    = Ok (ResultText (-5)%float (derive (-5)%float), None, None) /\
  daily_energy (derive (-5)%float) = ((-5) * 6.5)%float.
Proof.
  assert (H : fst (predict_biogas (g_const (-5)%float) args_ones w0)
              = Ok (ResultText (-5)%float (derive (-5)%float), None, None))
    by (vm_compute; reflexivity).
  split; [exact H|].
  apply (predict_biogas_derived_metrics _ _ _ _ _ _ _ H).
Defined.

(** ** C5: an explainer failure keeps the prediction *)

(** C5: when the predictor succeeds with [p] and the explainer raises,
    [predict_biogas] still returns the prediction text for [p] with its
    derived metrics, and no chart, without raising. *)
Theorem predict_biogas_explainer_failure g m ex args x p e w :
  model g = Some m ->
  explainer g = Some ex ->
  select (input_data args) (feature_names g) = Ok x ->
  m x = Ok p ->
  ex x = Raise e ->
  fst (predict_biogas g args w) = Ok (ResultText p (derive p), None, None).
Proof.
  intros Hm Hex Hsel Hp He.
  rewrite (predict_biogas_predicted g m args x p w Hm Hsel Hp).
  simpl; rewrite Hex, He; reflexivity.
Qed.

Lemma predict_biogas_explainer_failure_witness :
  fst (predict_biogas g_bad_explainer args_ones w0)
    = Ok (ResultText 75.5%float (derive 75.5%float), None, None).
Proof.
  apply (predict_biogas_explainer_failure g_bad_explainer
           (fun _ => Ok 75.5%float)
           (fun _ => Raise (LibraryError "Model type not yet supported"))
           args_ones (repeat 1%float 18) 75.5%float
           (LibraryError "Model type not yet supported") w0);
    vm_compute; reflexivity.
Defined.

(** ** C6: an unavailable registry short-circuits both handlers *)

(** C6: when the model failed to load, [predict_biogas] and
    [batch_predict] return their "Model not loaded" message without
    raising, and leave the world unchanged: in particular no call of the
    predictor (or of the explainer) is made. *)
Theorem unavailable_short_circuit g args file w :
  model g = None ->
  predict_biogas g args w = (Ok (NotLoadedMsg, None, None), w) /\
  batch_predict g file w = (Ok (BatchNotLoadedMsg, None), w).
Proof.
  intros Hm; unfold predict_biogas, batch_predict; rewrite Hm; split; reflexivity.
Qed.

Lemma unavailable_short_circuit_witness :
  predict_biogas g_unavailable args_ones w0 = (Ok (NotLoadedMsg, None, None), w0) /\
  batch_predict g_unavailable None w0 = (Ok (BatchNotLoadedMsg, None), w0).
Proof.
  apply (unavailable_short_circuit g_unavailable args_ones None w0).
  reflexivity.
Defined.

(** ** C9: determinism *)

(** C9: for fixed globals (the loaded predictor and explainer) and fixed
    slider values, two runs of [predict_biogas] return the same result,
    whatever was printed, written or called before each run. *)
Theorem predict_biogas_deterministic g args w1 w2 :
  fst (predict_biogas g args w1) = fst (predict_biogas g args w2).
Proof. apply predict_biogas_indep. Qed.

(** ** C10: no uploaded file *)

(** C10: [batch_predict] without a file returns an error message
    ("Please upload a CSV file", or "Model not loaded" when the model is
    missing) and no output file, without raising and without changing the
    world: no predictor call, no file written. *)
Theorem batch_predict_no_file g w :
  batch_predict g None w =
  (Ok (match model g with
       | None => BatchNotLoadedMsg
       | Some _ => NoFileMsg
       end, None), w).
Proof. unfold batch_predict; destruct (model g); reflexivity. Qed.

(** ** The ranking of SHAP contributions *)

Definition abs_desc (a b : string * Q) : Prop := sort_key b <= sort_key a.

Definition has_key (k : Q) (p : string * Q) : bool := Qeq_bool (sort_key p) k.

Lemma abs_desc_trans : Transitive abs_desc.
Proof. intros a b c Hab Hbc; unfold abs_desc in *; eapply Qle_trans; eauto. Qed.

Lemma insert_desc_in z x l : In z (insert_desc x l) <-> z = x \/ In z l.
Proof.
  induction l as [|y t IH]; simpl.
  - intuition congruence.
  - destruct (Qlt_le_dec (sort_key y) (sort_key x)); simpl; rewrite ?IH;
      intuition congruence.
Qed.

Lemma insert_desc_hd y x t :
  HdRel abs_desc y t -> sort_key x <= sort_key y ->
  HdRel abs_desc y (insert_desc x t).
Proof.
  intros Hd Hle; destruct t as [|z t']; simpl.
  - constructor; exact Hle.
  - destruct (Qlt_le_dec (sort_key z) (sort_key x)); constructor.
    + exact Hle.
    + now inversion Hd.
Qed.

Lemma insert_desc_sorted x l :
  Sorted abs_desc l -> Sorted abs_desc (insert_desc x l).
Proof.
  induction l as [|y t IH]; intros Hs; simpl.
  - repeat constructor.
  - apply Sorted_inv in Hs as [Ht Hd].
    destruct (Qlt_le_dec (sort_key y) (sort_key x)) as [Hlt|Hle].
    + constructor; [constructor; auto|constructor; unfold abs_desc; now apply Qlt_le_weak].
    + constructor; [now apply IH|now apply insert_desc_hd].
Qed.

Lemma sorted_by_abs_desc_fold items acc :
  Sorted abs_desc acc ->
  Sorted abs_desc (fold_left (fun acc x => insert_desc x acc) items acc).
Proof.
  revert acc; induction items as [|x t IH]; intros acc Hs; simpl; auto.
  apply IH, insert_desc_sorted, Hs.
Qed.

Lemma sorted_by_abs_desc_sorted items : Sorted abs_desc (sorted_by_abs_desc items).
Proof. apply sorted_by_abs_desc_fold; constructor. Qed.

Lemma sorted_by_abs_desc_in z items :
  In z (sorted_by_abs_desc items) <-> In z items.
Proof.
  unfold sorted_by_abs_desc.
  enough (forall acc, In z (fold_left (fun acc x => insert_desc x acc) items acc)
                      <-> In z acc \/ In z items) as H
    by (rewrite H; simpl; tauto).
  induction items as [|x t IH]; intros acc; simpl.
  - tauto.
  - rewrite IH, insert_desc_in; intuition congruence.
Qed.

(** An item whose key exceeds the head of a sorted list exceeds all of it. *)
Lemma filter_below k y t :
  Sorted abs_desc (y :: t) -> sort_key y < k ->
  filter (has_key k) (y :: t) = [].
Proof.
  intros Hs Hlt.
  apply Sorted_StronglySorted in Hs; [|exact abs_desc_trans].
  apply StronglySorted_inv in Hs as [_ Hall].
  assert (Hy : has_key k y = false).
  { unfold has_key; apply not_true_iff_false; rewrite Qeq_bool_iff.
    intros He; rewrite He in Hlt; apply (Qlt_irrefl k Hlt). }
  simpl; rewrite Hy.
  induction t as [|z t' IH]; simpl; auto.
  inversion Hall as [|? ? Hz Hall']; subst.
  assert (Hzk : has_key k z = false).
  { unfold has_key; apply not_true_iff_false; rewrite Qeq_bool_iff.
    intros He; unfold abs_desc in Hz; rewrite He in Hz.
    apply (Qlt_irrefl k); eapply Qle_lt_trans; eauto. }
  rewrite Hzk; apply IH; auto.
Qed.

Lemma filter_insert_desc k x l :
  Sorted abs_desc l ->
  filter (has_key k) (insert_desc x l) =
  filter (has_key k) l ++ filter (has_key k) [x].
Proof.
  induction l as [|y t IH]; intros Hs; simpl.
  - reflexivity.
  - destruct (Qlt_le_dec (sort_key y) (sort_key x)) as [Hlt|Hle].
    + simpl. destruct (has_key k x) eqn:Hx.
      * assert (Hk : sort_key x == k) by (now apply Qeq_bool_iff).
        assert (Hlt' : sort_key y < k) by (now rewrite <- Hk).
        pose proof (filter_below k y t Hs Hlt') as H0; simpl in H0.
        rewrite H0; reflexivity.
      * simpl; now rewrite app_nil_r.
    + apply Sorted_inv in Hs as [Ht _].
      simpl; rewrite (IH Ht); destruct (has_key k y); reflexivity.
Qed.

Lemma filter_sorted_by_abs_desc k items :
  filter (has_key k) (sorted_by_abs_desc items) = filter (has_key k) items.
Proof.
  unfold sorted_by_abs_desc.
  enough (forall acc, Sorted abs_desc acc ->
            filter (has_key k) (fold_left (fun acc x => insert_desc x acc) items acc)
            = filter (has_key k) acc ++ filter (has_key k) items) as H
    by (rewrite H; [reflexivity|constructor]).
  induction items as [|x t IH]; intros acc Hs; simpl.
  - now rewrite app_nil_r.
  - rewrite IH by (now apply insert_desc_sorted).
    rewrite filter_insert_desc by exact Hs.
    rewrite <- app_assoc; simpl; destruct (has_key k x); reflexivity.
Qed.

Lemma firstn_sorted {A} (R : A -> A -> Prop) n l :
  Sorted R l -> Sorted R (firstn n l).
Proof.
  revert l; induction n as [|n IH]; intros l Hs; simpl; [constructor|].
  destruct l as [|a t]; [constructor|].
  apply Sorted_inv in Hs as [Ht Hd].
  constructor; [now apply IH|].
  destruct n, t; simpl; try constructor; now inversion Hd.
Qed.

Lemma top_shap_spec items :
  (List.length (top_shap items) <= 10)%nat /\
  incl (top_shap items) items /\
  Sorted abs_desc (top_shap items) /\
  (forall k, exists rest,
      filter (has_key k) items = filter (has_key k) (top_shap items) ++ rest).
Proof.
  unfold top_shap; split; [|split; [|split]].
  - rewrite length_firstn; lia.
  - intros z Hz; apply sorted_by_abs_desc_in.
    rewrite <- (firstn_skipn 10 (sorted_by_abs_desc items)).
    apply in_or_app; now left.
  - apply firstn_sorted, sorted_by_abs_desc_sorted.
  - intros k; exists (filter (has_key k) (skipn 10 (sorted_by_abs_desc items))).
    rewrite <- filter_app, firstn_skipn.
    symmetry; apply filter_sorted_by_abs_desc.
Qed.

(** The waterfall chart is only drawn from a successful explanation. *)
Lemma predict_biogas_chart_inv g args w txt items f2 :
  fst (predict_biogas g args w) = Ok (txt, Some (Waterfall items), f2) ->
  exists ex x sv vals,
    explainer g = Some ex /\
    select (input_data args) (feature_names g) = Ok x /\
    ex x = Ok sv /\ shap_row sv = Ok vals /\
    items = top_shap (shap_dict (feature_names g) vals).
Proof.
  intros H.
  destruct (model g) as [m|] eqn:Hm.
  2:{ unfold predict_biogas in H; rewrite Hm in H; unfold_monad; discriminate. }
  destruct (select (input_data args) (feature_names g)) as [x|e] eqn:Hsel.
  2:{ rewrite (predict_biogas_ready g m args w Hm) in H; unfold_monad.
      rewrite Hsel in H; simpl in H; discriminate. }
  destruct (m x) as [p|e] eqn:Hp.
  2:{ rewrite (predict_biogas_ready g m args w Hm) in H; unfold_monad.
      rewrite Hsel in H; simpl in H; rewrite Hp in H; simpl in H; discriminate. }
  rewrite (predict_biogas_predicted g m args x p w Hm Hsel Hp) in H.
  simpl in H.
  destruct (explainer g) as [ex|]; [|discriminate].
  destruct (ex x) as [sv|e] eqn:Hsv; [|discriminate].
  destruct (shap_row sv) as [vals|e] eqn:Hrow; [|discriminate].
  inversion H; subst.
  exists ex, x, sv, vals; auto.
Qed.

(** An explainer returning a (1, 18) array with ties in absolute value. *)
Definition shap_vals_ties : list Q :=
  [ 1#2; -3; 3; 0; 2; -2; 1#4; -1#4; 5; -5; 1; -1; 3#2; 0; 0; 7; -7; 1#8 ].

Definition g_explained : globals :=
  mkGlobals (Some (fun _ => Ok 80%float)) input_names
            (Some (fun _ => Ok (Shap2 [shap_vals_ties]))).

(** ** C3: the attribution ranking *)

(** C3: whenever [predict_biogas] draws the SHAP chart, its items are the
    pairs (feature name, contribution) of the explainer's row, at most 10
    of them, in descending absolute contribution, and for every absolute
    value [k] the items of key [k] are the first ones of that key in the
    original feature order, in that order (stable tie-break). *)
Theorem predict_biogas_attribution_ranking g args w txt items f2 :
  fst (predict_biogas g args w) = Ok (txt, Some (Waterfall items), f2) ->
  exists ex x sv vals,
    explainer g = Some ex /\ ex x = Ok sv /\ shap_row sv = Ok vals /\
    (List.length items <= 10)%nat /\
    incl items (shap_dict (feature_names g) vals) /\
    Sorted abs_desc items /\
    (forall k, exists rest,
        filter (has_key k) (shap_dict (feature_names g) vals) =
        filter (has_key k) items ++ rest).
Proof.
  intros H.
  destruct (predict_biogas_chart_inv g args w txt items f2 H)
    as (ex & x & sv & vals & Hex & Hsel & Hsv & Hrow & ->).
  exists ex, x, sv, vals.
  destruct (top_shap_spec (shap_dict (feature_names g) vals)) as (? & ? & ? & ?).
  repeat split; auto.
Qed.


Definition top_ties : list (string * Q) :=
  [ ("Temperature (C)", 7); ("Humidity (%)", -7);
    ("Municipal Residue (kg)", 5); ("Fish Waste (kg)", -5);
    ("Kitchen Food Waste (kg)", -3); ("Chicken Litter (kg)", 3);
    ("Bagasse Feed (kg)", 2); ("Energy Grass (kg)", -2);
    ("Electricity Use (kWh)", 3#2); ("Water (L)", 1) ].

Lemma predict_biogas_attribution_ranking_witness :
  fst (predict_biogas g_explained args_ones w0) =
    Ok (ResultText 80%float (derive 80%float),
        Some (Waterfall top_ties), Some (bar_of top_ties)) /\
  (List.length top_ties <= 10)%nat /\ Sorted abs_desc top_ties.
Proof.
  assert (H : fst (predict_biogas g_explained args_ones w0) =
    Ok (ResultText 80%float (derive 80%float),
        Some (Waterfall top_ties), Some (bar_of top_ties)))
    by (vm_compute; reflexivity).
  split; [exact H|].
  destruct (predict_biogas_attribution_ranking _ _ _ _ _ _ H)
    as (ex & x & sv & vals & _ & _ & _ & Hlen & _ & Hs & _).
  split; assumption.
Defined.

(** ** Batch: missing columns *)

Lemma mem_false_iff n l : mem n l = false <-> ~ In n l.
Proof.
  unfold mem; rewrite <- not_true_iff_false, existsb_exists.
  split; intros H.
  - intros Hin; apply H; exists n; split; auto; apply String.eqb_refl.
  - intros (y & Hy & He); apply String.eqb_eq in He; subst; auto.
Qed.

Lemma mem_true_iff n l : mem n l = true <-> In n l.
Proof.
  split; intros H.
  - destruct (in_dec String.string_dec n l) as [|Hn]; auto.
    apply mem_false_iff in Hn; congruence.
  - destruct (mem n l) eqn:E; auto; apply mem_false_iff in E; contradiction.
Qed.

Lemma dedup_In x l : In x (dedup l) <-> In x l.
Proof.
  induction l as [|y t IH]; simpl; [tauto|].
  rewrite filter_In, IH.
  destruct (String.eqb y x) eqn:E; simpl.
  - apply String.eqb_eq in E; subst; tauto.
  - apply String.eqb_neq in E; intuition.
Qed.

Lemma dedup_NoDup l : NoDup (dedup l).
Proof.
  induction l as [|y t IH]; simpl; constructor.
  - rewrite filter_In, String.eqb_refl; simpl; intros [_ H]; discriminate.
  - apply NoDup_filter, IH.
Qed.

Lemma missing_columns_In c names cols :
  In c (missing_columns names cols) <-> In c names /\ ~ In c cols.
Proof.
  unfold missing_columns; rewrite dedup_In, filter_In, negb_true_iff, mem_false_iff.
  tauto.
Qed.

Lemma missing_columns_nil names cols :
  missing_columns names cols = [] <-> incl names cols.
Proof.
  split.
  - intros H c Hc.
    destruct (in_dec String.string_dec c cols) as [|Hn]; auto.
    assert (Hm : In c (missing_columns names cols))
      by (apply missing_columns_In; auto).
    rewrite H in Hm; contradiction.
  - intros Hi.
    destruct (missing_columns names cols) as [|c t] eqn:E; auto.
    assert (Hc : In c (missing_columns names cols)) by (rewrite E; left; auto).
    apply missing_columns_In in Hc as [Hn Hnc].
    exfalso; apply Hnc, Hi, Hn.
Qed.

(** [batch_predict] on a loaded model and a file that pandas reads. *)
Lemma batch_predict_read g m f df w :
  model g = Some m -> read_result f = Ok df ->
  batch_predict g (Some f) w =
  catch
    (match missing_columns (feature_names g) (columns df) with
     | _ :: _ =>
         ret (MissingColumnsMsg (missing_columns (feature_names g) (columns df)),
              None)
     | [] =>
         predictions <- mapM (predict_row m (feature_names g) (columns df))
                             (rows df) ;;
         let df' := assign_column df prediction_column predictions in
         s <- summarize (List.length (rows df')) predictions ;;
         write_csv output_file df' ;;;
         ret (SummaryText s, Some output_file)
     end)
    (fun e => ret (FileErrorMsg e, None)) w.
Proof.
  intros Hm Hf; unfold batch_predict; rewrite Hm.
  unfold catch, bind, read_csv, lift; rewrite Hf; reflexivity.
Qed.

(** The scenario table with the "C/N Ratio" column left out. *)
Definition names_without_cn : list string :=
  filter (fun n => negb (String.eqb n "C/N Ratio")) input_names.

Definition upload_without_cn : upload :=
  mkUpload (Ok (mkTable names_without_cn [repeat 1%float 17])).

(** ** C4: missing columns are reported exactly *)

(** C4: when the loaded [feature_names] are not all columns of the CSV,
    [batch_predict] rejects it with the "Missing columns" message, whose
    set is exactly [set(feature_names) - set(df.columns)] (each name
    once), without raising and without calling the predictor or writing a
    file. *)
Theorem batch_predict_missing_columns g m f df w :
  model g = Some m ->
  read_result f = Ok df ->
  ~ incl (feature_names g) (columns df) ->
  exists cols,
    batch_predict g (Some f) w = (Ok (MissingColumnsMsg cols, None), w) /\
    NoDup cols /\
    (forall c, In c cols <-> In c (feature_names g) /\ ~ In c (columns df)).
Proof.
  intros Hm Hf Hni.
  rewrite (batch_predict_read g m f df w Hm Hf).
  exists (missing_columns (feature_names g) (columns df)).
  split; [|split; [apply dedup_NoDup|intros c; apply missing_columns_In]].
  destruct (missing_columns (feature_names g) (columns df)) eqn:E.
  - apply missing_columns_nil in E; contradiction.
  - reflexivity.
Qed.

Lemma batch_predict_missing_columns_witness :
  batch_predict (g_const 80%float) (Some upload_without_cn) w0
    = (Ok (MissingColumnsMsg ["C/N Ratio"], None), w0) /\
  exists cols,
    batch_predict (g_const 80%float) (Some upload_without_cn) w0
      = (Ok (MissingColumnsMsg cols, None), w0) /\
    NoDup cols /\
    (forall c, In c cols <-> In c input_names /\ ~ In c names_without_cn).
Proof.
  split; [vm_compute; reflexivity|].
  apply (batch_predict_missing_columns (g_const 80%float) (fun _ => Ok 80%float)
           upload_without_cn (mkTable names_without_cn [repeat 1%float 17]) w0).
  - reflexivity.
  - reflexivity.
  - intros Hi.
    apply (proj1 (mem_false_iff "C/N Ratio" names_without_cn) eq_refl).
    apply Hi; vm_compute; tauto.
Defined.

(** ** Batch: the prediction loop *)

Definition calls_after (w : world) (n : nat) : world :=
  mkWorld (stdout w) (files w) (calls w ++ repeat CallPredict n).

Lemma predict_row_inv m names cols r w p w' :
  predict_row m names cols r w = (Ok p, w') ->
  (exists x, select (combine cols r) names = Ok x /\ m x = Ok p) /\
  w' = calls_after w 1.
Proof.
  unfold predict_row, call_predict, bind, lift, log_call; intros H.
  destruct (select (combine cols r) names) as [x|e]; [|discriminate].
  destruct (m x) as [p'|e] eqn:Hp; [|discriminate].
  injection H as <- <-; split; eauto.
Qed.

Lemma mapM_predict_row m names cols rs w preds w' :
  mapM (predict_row m names cols) rs w = (Ok preds, w') ->
  Forall2 (fun r p => exists x, select (combine cols r) names = Ok x /\ m x = Ok p)
          rs preds /\
  w' = calls_after w (List.length rs).
Proof.
  revert w preds w'; induction rs as [|r t IH]; intros w preds w' H; simpl in H.
  - unfold ret in H; injection H as <- <-; split; [constructor|].
    unfold calls_after; destruct w; simpl; now rewrite app_nil_r.
  - unfold bind at 1 in H.
    destruct (predict_row m names cols r w) as [[p|e] w1] eqn:Hr; [|discriminate].
    unfold bind in H.
    destruct (mapM (predict_row m names cols) t w1) as [[ps|e] w2] eqn:Ht;
      [|discriminate].
    unfold ret in H; injection H as <- <-.
    destruct (predict_row_inv _ _ _ _ _ _ _ Hr) as [Hx ->].
    destruct (IH _ _ _ Ht) as [HF ->].
    split; [constructor; auto|].
    unfold calls_after; simpl; now rewrite <- app_assoc.
Qed.

Lemma summarize_inv n preds w s w' :
  summarize n preds w = (Ok s, w') ->
  w' = w /\ preds <> [] /\
  exists mn mx, np_min preds = Ok mn /\ np_max preds = Ok mx /\
    s = mkSummary n (np_mean preds) (np_std preds) mn mx (mx - mn)%float.
Proof.
  unfold summarize, bind, lift, ret; intros H.
  destruct (np_min preds) as [mn|e] eqn:Hmn; [|discriminate].
  destruct (np_max preds) as [mx|e] eqn:Hmx; [|discriminate].
  inversion H; subst; split; [reflexivity|split].
  - intros ->; discriminate.
  - exists mn, mx; auto.
Qed.

(** Every batch answered with statistics went through the whole loop. *)
Lemma batch_predict_summary_inv g m f df w s out w' :
  model g = Some m ->
  read_result f = Ok df ->
  batch_predict g (Some f) w = (Ok (SummaryText s, out), w') ->
  incl (feature_names g) (columns df) /\
  exists preds,
    Forall2 (fun r p => exists x,
                select (combine (columns df) r) (feature_names g) = Ok x /\
                m x = Ok p)
            (rows df) preds /\
    summarize (List.length (rows (assign_column df prediction_column preds))) preds
              (calls_after w (List.length (rows df)))
      = (Ok s, calls_after w (List.length (rows df))) /\
    out = Some output_file /\
    w' = mkWorld (stdout w)
                 (files w ++ [(output_file, assign_column df prediction_column preds)])
                 (calls w ++ repeat CallPredict (List.length (rows df))).
Proof.
  intros Hm Hf H.
  rewrite (batch_predict_read g m f df w Hm Hf) in H.
  destruct (missing_columns (feature_names g) (columns df)) eqn:E.
  2:{ unfold catch, ret in H; discriminate. }
  split; [now apply missing_columns_nil|].
  unfold catch, bind at 1 in H.
  destruct (mapM (predict_row m (feature_names g) (columns df)) (rows df) w)
    as [[preds|e] w1] eqn:Hmap.
  2:{ unfold ret in H; discriminate. }
  destruct (mapM_predict_row _ _ _ _ _ _ _ Hmap) as [HF ->].
  unfold bind at 1 in H.
  destruct (summarize (List.length (rows (assign_column df prediction_column preds)))
                      preds (calls_after w (List.length (rows df))))
    as [[s'|e] w2] eqn:Hs.
  2:{ unfold ret in H; discriminate. }
  destruct (summarize_inv _ _ _ _ _ Hs) as [-> _].
  unfold bind, write_csv, ret in H; simpl in H.
  injection H as <- <- <-.
  exists preds; repeat split; auto.
Qed.


(** ** C2: one prediction per row, in order, in the prediction column *)

(** A table that already has a "Predicted_Biogas_m3" column, such as an
    earlier output file uploaded again. *)
Definition table_with_predictions : table :=
  mkTable (input_names ++ [prediction_column]) [repeat 1%float 19].

(** C2 fails: the written table gets no new column when the upload already
    has one named "Predicted_Biogas_m3"; that column is overwritten. *)
Lemma batch_predict_existing_column_overwritten :
  files (snd (batch_predict (g_const 80%float)
                            (Some (mkUpload (Ok table_with_predictions))) w0))
    = [(output_file,
        mkTable (columns table_with_predictions)
                [repeat 1%float 18 ++ [80%float]])] /\
  (List.length (columns table_with_predictions) = 19)%nat.
Proof. split; vm_compute; reflexivity. Qed.

(** C2 (amended): when [batch_predict] answers with statistics, the
    predictor was called exactly once per row, in row order, and the
    written table is the input with these predictions, one per row in the
    same order, in the column "Predicted_Biogas_m3": a new last column when
    the table has none of that name, otherwise the existing column
    overwritten in place (no column added). *)
Theorem batch_predict_rows_in_order g m f df w s out w' :
  model g = Some m ->
  read_result f = Ok df ->
  batch_predict g (Some f) w = (Ok (SummaryText s, out), w') ->
  exists preds,
    Forall2 (fun r p => exists x,
                select (combine (columns df) r) (feature_names g) = Ok x /\
                m x = Ok p)
            (rows df) preds /\
    calls w' = calls w ++ repeat CallPredict (List.length (rows df)) /\
    out = Some output_file /\
    (exists out_df,
        files w' = files w ++ [(output_file, out_df)] /\
        (~ In prediction_column (columns df) ->
         out_df = mkTable (columns df ++ [prediction_column])
                          (map (fun rp => fst rp ++ [snd rp])
                               (combine (rows df) preds))) /\
        (In prediction_column (columns df) ->
         out_df = mkTable (columns df)
                          (map (fun rp => set_nth (index_of prediction_column
                                                            (columns df))
                                                  (snd rp) (fst rp))
                               (combine (rows df) preds)))).
Proof.
  intros Hm Hf H.
  destruct (batch_predict_summary_inv g m f df w s out w' Hm Hf H)
    as (_ & preds & HF & _ & Hout & ->).
  exists preds; split; [exact HF|split; [reflexivity|split; [exact Hout|]]].
  exists (assign_column df prediction_column preds); split; [reflexivity|].
  unfold assign_column; split; intros Hin.
  - apply mem_false_iff in Hin; now rewrite Hin.
  - apply mem_true_iff in Hin; now rewrite Hin.
Qed.

Lemma batch_predict_rows_in_order_witness :
  calls (snd (batch_predict g_first (Some three_upload) w0))
    = [CallPredict; CallPredict; CallPredict] /\
  files (snd (batch_predict g_first (Some three_upload) w0))
    = [(output_file,
        mkTable (input_names ++ [prediction_column])
                [(3%float :: repeat 1%float 17) ++ [3%float];
                 (1%float :: repeat 1%float 17) ++ [1%float];
                 (2%float :: repeat 1%float 17) ++ [2%float]])].
Proof.
  destruct (batch_predict_rows_in_order g_first first_input three_upload
              three_scenarios w0 summary_three (Some output_file)
              (snd (batch_predict g_first (Some three_upload) w0)))
    as (preds & HF & Hc & _ & out_df & Hfiles & Hnew & _).
  - reflexivity.
  - reflexivity.
  - vm_compute; reflexivity.
  - assert (Hp : preds = [3%float; 1%float; 2%float])
      by (cbn [rows three_scenarios] in HF; concrete_preds; reflexivity).
    rewrite Hnew in Hfiles.
    2:{ apply mem_false_iff; vm_compute; reflexivity. }
    rewrite Hc, Hfiles, Hp; split; reflexivity.
Defined.

(** ** C7: an empty table *)

Definition empty_scenarios : table := mkTable input_names [].

(** C7 (evaluated): on a CSV with every feature column and no row,
    [batch_predict] does not return an empty prediction column with
    undefined statistics: [np.min] of the empty predictions raises, the
    [except] turns it into the "Error processing file" message, and no
    output file is produced. *)
Theorem batch_predict_empty_table g m f df w :
  model g = Some m ->
  read_result f = Ok df ->
  incl (feature_names g) (columns df) ->
  rows df = [] ->
  batch_predict g (Some f) w =
  (Ok (FileErrorMsg (ValueError
        "zero-size array to reduction operation minimum which has no identity"),
       None), w).
Proof.
  intros Hm Hf Hi Hr.
  rewrite (batch_predict_read g m f df w Hm Hf).
  apply missing_columns_nil in Hi; rewrite Hi, Hr.
  reflexivity.
Qed.

Lemma batch_predict_empty_table_witness :
  batch_predict (g_const 80%float) (Some (mkUpload (Ok empty_scenarios))) w0 =
  (Ok (FileErrorMsg (ValueError
        "zero-size array to reduction operation minimum which has no identity"),
       None), w0).
Proof.
  apply (batch_predict_empty_table (g_const 80%float) (fun _ => Ok 80%float)
           (mkUpload (Ok empty_scenarios)) empty_scenarios w0).
  - reflexivity.
  - reflexivity.
  - intros c Hc; exact Hc.
  - reflexivity.
Defined.

(** ** C8: batch statistics *)



(** *** The order of binary64 floats *)















(** * Further properties of [app.py] *)

(** ** Loading *)

Definition core_of (a : artifacts)
  : option (predictor * list string * feature_stats * metrics) :=
  match load_model a, load_feature_names a, load_feature_stats a,
        load_performance_metrics a with
  | Ok m, Ok fn, Ok fs, Ok pm => Some (m, fn, fs, pm)
  | _, _, _, _ => None
  end.

Lemma load_core_result a w : fst (load_core a w) = Ok (core_of a).
Proof.
  unfold load_core, core_of; unfold_monad.
  destruct (load_model a), (load_feature_names a), (load_feature_stats a),
    (load_performance_metrics a); reflexivity.
Qed.

Definition explainer_of (a : artifacts) (model : option predictor)
  : outcome (option shap_explainer) :=
  match load_shap_explainer a with
  | Ok ex => Ok (Some ex)
  | Raise _ =>
      match model with
      | Some m =>
          match tree_explainer a m with
          | Ok ex => Ok (Some ex)
          | Raise e => Raise e
          end
      | None => Ok None
      end
  end.

Lemma load_explainer_result a mo w :
  fst (load_explainer a mo w) = explainer_of a mo.
Proof.
  unfold load_explainer, explainer_of; unfold_monad.
  destruct (load_shap_explainer a); [reflexivity|].
  destruct mo as [m|]; [|reflexivity].
  destruct (tree_explainer a m); reflexivity.
Qed.

Definition state_of (core : option (predictor * list string * feature_stats * metrics))
  (ex : option shap_explainer) : module_state :=
  match core with
  | Some (m, fn, fs, pm) => mkState (Some m) (Some fn) (Some fs) (Some pm) ex
  | None => mkState None None None None ex
  end.

Definition core_model (core : option (predictor * list string * feature_stats * metrics))
  : option predictor :=
  match core with
  | Some (m, _, _, _) => Some m
  | None => None
  end.

Lemma load_globals_result a w :
  fst (load_globals a w) =
  match explainer_of a (core_model (core_of a)) with
  | Ok ex => Ok (state_of (core_of a) ex)
  | Raise e => Raise e
  end.
Proof.
  unfold load_globals, bind at 1, print at 1.
  set (w1 := mkWorld _ _ _).
  pose proof (load_core_result a w1) as Hc.
  unfold bind at 1.
  destruct (load_core a w1) as [[core|e] w2]; simpl in Hc; [|discriminate].
  injection Hc as ->.
  destruct (core_of a) as [[[[m fn] fs] pm]|]; simpl;
    [ rewrite <- (load_explainer_result a (Some m) w2)
    | rewrite <- (load_explainer_result a None w2) ];
    unfold bind; destruct (load_explainer a _ w2) as [[ex|e] w3]; reflexivity.
Qed.

Definition stats_fallback : feature_stats :=
  mkStats fallback_defaults fallback_mins fallback_maxs.

Definition tree_explainer_ok : predictor -> outcome shap_explainer :=
  fun _ => Ok (fun _ => Ok (Shap1 [])).

(** All artifacts present except the pickled explainer. *)
Definition arts_ok : artifacts :=
  mkArtifacts (Ok (fun _ => Ok 80%float)) (Ok input_names) (Ok stats_fallback)
              (Ok []) (Raise (LibraryError "No such file: shap_explainer.pkl"))
              tree_explainer_ok.

(** The model pickle is missing; the explainer pickle is present. *)
Definition arts_no_model : artifacts :=
  mkArtifacts (Raise (LibraryError "No such file: lightgbm_model.pkl"))
              (Ok input_names) (Ok stats_fallback) (Ok [])
              (Ok (fun _ => Ok (Shap1 []))) tree_explainer_ok.

(** X1: the model, the feature names, the statistics and the metrics are
    loaded all or nothing: when the loading code finishes, either all four
    loads succeeded and the globals hold their values, or one of them
    raised and all four globals are [None]. *)
Theorem load_globals_all_or_nothing a w st :
  fst (load_globals a w) = Ok st ->
  (exists m fn fs pm,
      load_model a = Ok m /\ load_feature_names a = Ok fn /\
      load_feature_stats a = Ok fs /\ load_performance_metrics a = Ok pm /\
      st_model st = Some m /\ st_feature_names st = Some fn /\
      st_feature_stats st = Some fs /\ st_performance_metrics st = Some pm) \/
  ((exists e, load_model a = Raise e \/ load_feature_names a = Raise e \/
              load_feature_stats a = Raise e \/
              load_performance_metrics a = Raise e) /\
   st_model st = None /\ st_feature_names st = None /\
   st_feature_stats st = None /\ st_performance_metrics st = None).
Proof.
  rewrite load_globals_result; intros H.
  destruct (explainer_of a (core_model (core_of a))) as [ex|e]; [|discriminate].
  injection H as <-.
  unfold core_of; destruct (load_model a) as [m|e1] eqn:E1.
  - destruct (load_feature_names a) as [fn|e2] eqn:E2.
    + destruct (load_feature_stats a) as [fs|e3] eqn:E3.
      * destruct (load_performance_metrics a) as [pm|e4] eqn:E4.
        -- left; exists m, fn, fs, pm; simpl; repeat split; reflexivity.
        -- right; simpl; split; [exists e4; auto|repeat split].
      * right; simpl; split; [exists e3; auto|repeat split].
    + right; simpl; split; [exists e2; auto|repeat split].
  - right; simpl; split; [exists e1; auto|repeat split].
Qed.

Lemma load_globals_all_or_nothing_witness :
  fst (load_globals arts_no_model w0) =
    Ok (mkState None None None None (Some (fun _ => Ok (Shap1 [])))) /\
  st_feature_stats (mkState None None None None (Some (fun _ => Ok (Shap1 []))))
    = None.
Proof.
  assert (H : fst (load_globals arts_no_model w0) =
              Ok (mkState None None None None (Some (fun _ => Ok (Shap1 [])))))
    by (vm_compute; reflexivity).
  split; [exact H|].
  destruct (load_globals_all_or_nothing _ _ _ H)
    as [(m & fn & fs & pm & Hm & _)|(_ & _ & _ & Hfs & _)].
  - discriminate.
  - exact Hfs.
Defined.

(** X2: the pickled explainer, when it loads, is the explainer, even when
    the model failed to load; otherwise one is built with
    [TreeExplainer(model)] when the model loaded (an exception there is
    not caught and aborts the import), and the explainer is [None] when
    the model did not load. *)
Theorem load_globals_explainer a w :
  (forall ex, load_shap_explainer a = Ok ex ->
     exists st, fst (load_globals a w) = Ok st /\ st_explainer st = Some ex) /\
  (forall e0 m, load_shap_explainer a = Raise e0 ->
     core_model (core_of a) = Some m ->
     match tree_explainer a m with
     | Ok ex => exists st, fst (load_globals a w) = Ok st /\ st_explainer st = Some ex
     | Raise e => fst (load_globals a w) = Raise e
     end) /\
  (forall e0, load_shap_explainer a = Raise e0 ->
     core_model (core_of a) = None ->
     exists st, fst (load_globals a w) = Ok st /\ st_explainer st = None).
Proof.
  rewrite load_globals_result; unfold explainer_of.
  split; [|split].
  - intros ex Hex; rewrite Hex; eexists; split; [reflexivity|].
    destruct (core_of a) as [[[[? ?] ?] ?]|]; reflexivity.
  - intros e0 m He Hm; rewrite He, Hm.
    destruct (tree_explainer a m) as [ex|e]; [|reflexivity].
    eexists; split; [reflexivity|].
    destruct (core_of a) as [[[[? ?] ?] ?]|]; reflexivity.
  - intros e0 He Hm; rewrite He, Hm.
    eexists; split; [reflexivity|].
    destruct (core_of a) as [[[[? ?] ?] ?]|]; reflexivity.
Qed.

Lemma load_globals_explainer_witness :
  exists st, fst (load_globals arts_no_model w0) = Ok st /\
             st_explainer st = Some (fun _ => Ok (Shap1 [])).
Proof.
  destruct (load_globals_explainer arts_no_model w0) as [H _].
  apply H; reflexivity.
Defined.

(** ** Import: sliders, template and [gr.File] *)

Lemma build_sliders_ok d lo hi names :
  (forall n, In n names ->
     lookup n lo <> None /\ lookup n hi <> None /\ lookup n d <> None) ->
  exists sl, build_sliders d lo hi names = Ok sl.
Proof.
  induction names as [|k t IH]; intros H; simpl; [eexists; reflexivity|].
  destruct (H k (or_introl eq_refl)) as (H1 & H2 & H3).
  unfold obind, getitem.
  destruct (lookup k lo); [|congruence].
  destruct (lookup k hi); [|congruence].
  destruct (lookup k d); [|congruence].
  destruct IH as [sl Hsl]; [intros; apply H; right; assumption|].
  rewrite Hsl; eexists; reflexivity.
Qed.

Lemma build_sliders_missing d lo hi names n :
  In n names ->
  (lookup n lo = None \/ lookup n hi = None \/ lookup n d = None) ->
  exists k, build_sliders d lo hi names = Raise (KeyError k) /\ In k names.
Proof.
  induction names as [|k t IH]; intros Hin Hn; [destruct Hin|]; simpl.
  unfold obind at 1, getitem at 1.
  destruct (lookup k lo) as [a|] eqn:E1; [|exists k; auto].
  unfold obind at 1, getitem at 1.
  destruct (lookup k hi) as [b|] eqn:E2; [|exists k; auto].
  unfold obind at 1, getitem at 1.
  destruct (lookup k d) as [c|] eqn:E3; [|exists k; auto].
  destruct Hin as [->|Hin]; [intuition congruence|].
  destruct (IH Hin Hn) as (k' & Hk & Hi).
  rewrite Hk; exists k'; auto.
Qed.

Lemma template_fold_raise defaults l e :
  fold_left (template_step defaults) l (Raise e) = Raise e.
Proof. induction l; simpl; auto. Qed.

Lemma template_fold_ok defaults l d :
  (forall n, In n l -> lookup n defaults <> None) ->
  exists d', fold_left (template_step defaults) l (Ok d) = Ok d'.
Proof.
  revert d; induction l as [|k t IH]; intros d H; simpl; [eexists; reflexivity|].
  unfold obind, getitem.
  destruct (lookup k defaults) as [v|] eqn:E; [|exfalso; exact (H k (or_introl eq_refl) E)].
  apply IH; intros; apply H; right; assumption.
Qed.


(** X3: when the model, the feature names, the statistics or the metrics
    fail to load, importing the module does not start the app: the
    sliders are built from the fallback dictionaries, but the template
    comprehension iterates over [feature_names], which is [None], and
    raises [TypeError]. *)
Theorem app_import_fails_without_model a w :
  core_of a = None ->
  fst (app_import a w) = inl (TypeError "'NoneType' object is not iterable").
Proof.
  intros Hc; unfold app_import.
  pose proof (load_globals_result a w) as Hl.
  rewrite Hc in Hl; simpl in Hl; unfold explainer_of in Hl.
  destruct (load_globals a w) as [[st|e] w']; simpl in Hl.
  - assert (Hst : st_feature_stats st = None /\ st_feature_names st = None).
    { destruct (load_shap_explainer a); injection Hl as Hl; subst st; split; reflexivity. }
    destruct Hst as [Hs Hn].
    unfold ui_ranges; rewrite Hs.
    destruct (build_sliders fallback_defaults fallback_mins fallback_maxs input_names)
      as [sl|e] eqn:E.
    + rewrite Hn; reflexivity.
    + vm_compute in E; discriminate.
  - destruct (load_shap_explainer a); discriminate.
Qed.

(** The explainer pickle loads but the model pickle does not. *)
Lemma app_import_fails_without_model_witness :
  core_of arts_no_model = None /\
  fst (app_import arts_no_model w0)
    = inl (TypeError "'NoneType' object is not iterable").
Proof.
  split; [reflexivity|].
  apply app_import_fails_without_model; reflexivity.
Defined.


(** X5: when everything loads and the statistics have a minimum, a
    maximum and a mean for each of the 18 inputs and a mean for each
    feature name, the sliders and the template are built, and the import
    dies at line 410 with the [TypeError] of [gr.File]. *)
Theorem app_import_gr_file_error a w m fn fs pm ex :
  core_of a = Some (m, fn, fs, pm) ->
  explainer_of a (Some m) = Ok ex ->
  (forall n, In n input_names ->
     lookup n (mins fs) <> None /\ lookup n (maxs fs) <> None /\
     lookup n (means fs) <> None) ->
  (forall n, In n fn -> lookup n (means fs) <> None) ->
  fst (app_import a w) = inl GrFileBytesError.
Proof.
  intros Hc He Hs Ht.
  unfold app_import.
  pose proof (load_globals_result a w) as Hl.
  rewrite Hc in Hl; cbn [core_model] in Hl; rewrite He in Hl.
  destruct (load_globals a w) as [[st|e] w']; simpl in Hl; [|discriminate].
  injection Hl as Hl; subst st; cbn [state_of ui_ranges st_feature_stats st_feature_names].
  destruct (build_sliders_ok _ _ _ _ Hs) as [sl Hsl]; rewrite Hsl.
  unfold build_template.
  destruct (template_fold_ok (means fs) fn [] Ht) as [d Hd]; rewrite Hd.
  reflexivity.
Qed.

Lemma app_import_gr_file_error_witness :
  fst (app_import arts_ok w0) = inl GrFileBytesError.
Proof.
  apply (app_import_gr_file_error arts_ok w0 (fun _ => Ok 80%float) input_names
           stats_fallback [] (Some (fun _ => Ok (Shap1 [])))).
  - reflexivity.
  - reflexivity.
  - intros n Hn; repeat split; intros H; vm_compute in Hn;
      repeat (destruct Hn as [<-|Hn]; [discriminate|]); destruct Hn.
  - intros n Hn; intros H; vm_compute in Hn;
      repeat (destruct Hn as [<-|Hn]; [discriminate|]); destruct Hn.
Defined.

(** Statistics whose minima lack "Rainfall (mm)". *)
Definition stats_without_rain_min : feature_stats :=
  mkStats fallback_defaults
          (filter (fun kv => negb (String.eqb (fst kv) "Rainfall (mm)")) fallback_mins)
          fallback_maxs.

Definition arts_without_rain_min : artifacts :=
  mkArtifacts (Ok (fun _ => Ok 80%float)) (Ok input_names)
              (Ok stats_without_rain_min) (Ok [])
              (Ok (fun _ => Ok (Shap1 []))) tree_explainer_ok.

(** X6: when everything loads but the statistics lack the minimum, the
    maximum or the mean of one of the 18 inputs, building the sliders
    raises the [KeyError] of an input, before the template. *)
Theorem app_import_slider_key_error a w m fn fs pm ex n :
  core_of a = Some (m, fn, fs, pm) ->
  explainer_of a (Some m) = Ok ex ->
  In n input_names ->
  (lookup n (mins fs) = None \/ lookup n (maxs fs) = None \/
   lookup n (means fs) = None) ->
  exists k, fst (app_import a w) = inl (Uncaught (KeyError k)) /\ In k input_names.
Proof.
  intros Hc He Hin Hn.
  unfold app_import.
  pose proof (load_globals_result a w) as Hl.
  rewrite Hc in Hl; cbn [core_model] in Hl; rewrite He in Hl.
  destruct (load_globals a w) as [[st|e] w']; simpl in Hl; [|discriminate].
  injection Hl as Hl; subst st; cbn [state_of ui_ranges st_feature_stats st_feature_names].
  destruct (build_sliders_missing _ _ _ _ _ Hin Hn) as (k & Hk & Hi).
  rewrite Hk; exists k; auto.
Qed.

Lemma app_import_slider_key_error_witness :
  exists k, fst (app_import arts_without_rain_min w0) = inl (Uncaught (KeyError k)) /\
            In k input_names.
Proof.
  apply (app_import_slider_key_error arts_without_rain_min w0 (fun _ => Ok 80%float)
           input_names stats_without_rain_min [] (Some (fun _ => Ok (Shap1 [])))
           "Rainfall (mm)").
  - reflexivity.
  - reflexivity.
  - vm_compute; repeat (try (left; reflexivity); right).
  - left; vm_compute; reflexivity.
Defined.

(** ** Column selection in [predict_biogas] *)

Lemma select_take d names x :
  select d names = Ok x <-> take_columns d names = Some x.
Proof.
  unfold select; destruct (take_columns d names) as [vs|].
  - split; intros H; injection H as ->; reflexivity.
  - split; [destruct (forallb (is_missing d) names); discriminate|discriminate].
Qed.

Lemma select_Forall2 d names x :
  select d names = Ok x <-> Forall2 (fun n v => lookup n d = Some v) names x.
Proof.
  rewrite select_take; split.
  - revert x; induction names as [|n t IH]; intros x H; simpl in H.
    + injection H as <-; constructor.
    + destruct (lookup n d) as [v|] eqn:E; [|discriminate].
      destruct (take_columns d t) as [vs|] eqn:E2; [|discriminate].
      injection H as <-; constructor; auto.
  - induction 1 as [|n v t vs Hv _ IH]; simpl; [reflexivity|].
    rewrite Hv, IH; reflexivity.
Qed.

Lemma take_columns_missing d names n :
  In n names -> lookup n d = None -> take_columns d names = None.
Proof.
  induction names as [|k t IH]; intros Hin Hn; [destruct Hin|]; simpl.
  destruct (lookup k d) as [v|] eqn:E; [|reflexivity].
  destruct Hin as [->|Hin]; [congruence|].
  rewrite (IH Hin Hn); reflexivity.
Qed.

Lemma filter_ext_l {A} (f g : A -> bool) l :
  (forall a, f a = g a) -> filter f l = filter g l.
Proof. intros H; induction l; simpl; [reflexivity|]; rewrite H, IHl; reflexivity. Qed.

Lemma forallb_ext_l {A} (f g : A -> bool) l :
  (forall a, f a = g a) -> forallb f l = forallb g l.
Proof. intros H; induction l; simpl; [reflexivity|]; rewrite H, IHl; reflexivity. Qed.

Lemma lookup_combine_In n l1 (l2 : list pyfloat) v :
  lookup n (combine l1 l2) = Some v -> In n l1.
Proof.
  revert l2; induction l1 as [|k t IH]; intros [|x l2] H; simpl in *;
    try discriminate.
  destruct (String.eqb n k) eqn:E.
  - left; symmetry; apply String.eqb_eq; exact E.
  - right; eauto.
Qed.

Lemma lookup_combine_found n l1 (l2 : list pyfloat) :
  In n l1 -> (List.length l1 <= List.length l2)%nat ->
  exists v, lookup n (combine l1 l2) = Some v.
Proof.
  revert l2; induction l1 as [|k t IH]; intros [|y l2] Hin Hlen;
    [destruct Hin|destruct Hin|simpl in Hlen; lia|].
  simpl; destruct (String.eqb n k) eqn:E; [eexists; reflexivity|].
  destruct Hin as [->|Hin]; [rewrite String.eqb_refl in E; discriminate|].
  apply IH; [exact Hin|simpl in Hlen; lia].
Qed.

(** With the 18 arguments, a name is missing from [input_data] exactly
    when it is not one of the 18 parameter names. *)
Lemma is_missing_input_data args n :
  List.length args = 18%nat ->
  is_missing (input_data args) n = negb (mem n input_names).
Proof.
  intros Hlen; unfold is_missing, input_data.
  destruct (mem n input_names) eqn:Em.
  - apply mem_true_iff in Em.
    destruct (lookup_combine_found n input_names args Em) as [v Hv];
      [rewrite Hlen; reflexivity|].
    rewrite Hv; reflexivity.
  - apply mem_false_iff in Em.
    destruct (lookup n (combine input_names args)) as [v|] eqn:E; [|reflexivity].
    exfalso; apply Em; exact (lookup_combine_In _ _ _ _ E).
Qed.

Lemma lookup_combine_nth n l1 (l2 : list pyfloat) v :
  lookup n (combine l1 l2) = Some v ->
  exists i, nth_error l1 i = Some n /\ nth_error l2 i = Some v.
Proof.
  revert l2; induction l1 as [|k t IH]; intros [|y l2] H; simpl in H;
    try discriminate.
  destruct (String.eqb n k) eqn:E.
  - apply String.eqb_eq in E; subst; injection H as <-; exists 0%nat; auto.
  - destruct (IH l2 H) as (i & H1 & H2); exists (S i); auto.
Qed.

Lemma nth_lookup_combine n l1 (l2 : list pyfloat) v i :
  NoDup l1 -> nth_error l1 i = Some n -> nth_error l2 i = Some v ->
  lookup n (combine l1 l2) = Some v.
Proof.
  revert l2 i; induction l1 as [|k t IH]; intros [|y l2] [|i] Hnd H1 H2;
    simpl in *; try discriminate.
  - injection H1 as ->; injection H2 as ->; rewrite String.eqb_refl; reflexivity.
  - inversion Hnd as [|k' t' Hk Hnd']; subst.
    destruct (String.eqb n k) eqn:E.
    + apply String.eqb_eq in E; subst.
      exfalso; apply Hk; eapply nth_error_In; exact H1.
    + eauto.
Qed.

Lemma input_names_NoDup : NoDup input_names.
Proof.
  assert (H : dedup input_names = input_names) by (vm_compute; reflexivity).
  rewrite <- H; apply dedup_NoDup.
Qed.

Definition g_extra_feature : globals :=
  mkGlobals (Some (fun _ => Ok 80%float)) (input_names ++ ["Moisture (%)"]) None.

Definition g_failing_model : globals :=
  mkGlobals (Some (fun _ => Raise (LibraryError "Number of features mismatch")))
            input_names None.

(** X7: with the 18 arguments, a feature name that is not one of the 18
    keys of [input_data] makes every click on "Predict" fail, before the
    model is called and without any other effect, with pandas' [KeyError]
    for [input_df[feature_names]]: "None of [...]" with all the feature
    names when none of them is a key, otherwise "[...] not in index" with
    the feature names that are not keys, once each, in order. *)
Theorem predict_biogas_unknown_feature g m args w n :
  model g = Some m ->
  List.length args = 18%nat ->
  In n (feature_names g) -> ~ In n input_names ->
  predict_biogas g args w =
    (Ok (PredictionErrorMsg
           (if forallb (fun k => negb (mem k input_names)) (feature_names g)
            then KeyErrorNoneOf (feature_names g)
            else KeyErrorNotInIndex (missing_columns (feature_names g) input_names)),
         None, None), w).
Proof.
  intros Hm Hlen Hin Hout.
  assert (Hn : lookup n (input_data args) = None).
  { destruct (lookup n (input_data args)) as [v|] eqn:E; [|reflexivity].
    exfalso; apply Hout; exact (lookup_combine_In _ _ _ _ E). }
  rewrite (predict_biogas_ready g m args w Hm).
  cbv beta iota delta [catch bind lift ret].
  unfold select; rewrite (take_columns_missing _ _ _ Hin Hn).
  rewrite (forallb_ext_l _ _ _ (fun k => is_missing_input_data args k Hlen)).
  rewrite (filter_ext_l _ _ _ (fun k => is_missing_input_data args k Hlen)).
  unfold missing_columns.
  destruct (forallb (fun k => negb (mem k input_names)) (feature_names g)); reflexivity.
Qed.

Lemma predict_biogas_unknown_feature_witness :
  predict_biogas g_extra_feature args_ones w0 =
    (Ok (PredictionErrorMsg (KeyErrorNotInIndex ["Moisture (%)"]), None, None), w0).
Proof.
  rewrite (predict_biogas_unknown_feature g_extra_feature (fun _ => Ok 80%float)
             args_ones w0 "Moisture (%)").
  - vm_compute; reflexivity.
  - reflexivity.
  - reflexivity.
  - apply in_or_app; right; left; reflexivity.
  - intros H; vm_compute in H; repeat (destruct H as [H|H]; [discriminate|]);
      destruct H.
Defined.

(** X8: the model gets the slider values reordered to [feature_names]:
    the value for a feature is the argument at that feature's position
    among the 18 parameters of [predict_biogas]. *)
Theorem predict_biogas_input_order args names x :
  select (input_data args) names = Ok x <->
  Forall2 (fun n v => exists i, nth_error input_names i = Some n /\
                                nth_error args i = Some v) names x.
Proof.
  rewrite select_Forall2; split; intros H; eapply Forall2_impl; try exact H.
  - intros n v Hv; exact (lookup_combine_nth _ _ _ _ Hv).
  - intros n v (i & H1 & H2).
    exact (nth_lookup_combine _ _ _ _ _ input_names_NoDup H1 H2).
Qed.

(** X9: when the model raises, the message reports its exception, there
    is no chart, the model was called once and the explainer never. *)
Theorem predict_biogas_model_failure g m args x e w :
  model g = Some m ->
  select (input_data args) (feature_names g) = Ok x ->
  m x = Raise e ->
  predict_biogas g args w = (Ok (PredictionErrorMsg e, None, None), calls_after w 1).
Proof.
  intros Hm Hs He.
  rewrite (predict_biogas_ready g m args w Hm).
  cbv beta iota delta [catch bind lift ret call_predict log_call].
  rewrite Hs; cbv beta iota; rewrite He; reflexivity.
Qed.

Lemma predict_biogas_model_failure_witness :
  predict_biogas g_failing_model args_ones w0
    = (Ok (PredictionErrorMsg (LibraryError "Number of features mismatch"),
           None, None), calls_after w0 1).
Proof.
  apply (predict_biogas_model_failure g_failing_model
           (fun _ => Raise (LibraryError "Number of features mismatch")) args_ones args_ones).
  - reflexivity.
  - vm_compute; reflexivity.
  - reflexivity.
Defined.

(** ** Effects and charts of [predict_biogas] *)

(** X10: a click on "Predict" never raises and never writes a file; it
    makes no library call (model not loaded, or a [KeyError] building the
    input), one model call, or one model call followed by one explainer
    call, and only when the model returned a prediction; the only output
    it prints is one "SHAP calculation error" line, after a failed SHAP
    computation, which leaves no chart. *)
Theorem predict_biogas_effects g args w :
  exists r outs evs,
    predict_biogas g args w =
      (Ok r, mkWorld (stdout w ++ outs) (files w) (calls w ++ evs)) /\
    ((evs = [] /\ outs = [] /\ snd (fst r) = None /\ snd r = None /\
      (fst (fst r) = NotLoadedMsg \/ exists e, fst (fst r) = PredictionErrorMsg e)) \/
     (evs = [CallPredict] /\ outs = [] /\ snd (fst r) = None /\ snd r = None /\
      ((exists e, fst (fst r) = PredictionErrorMsg e) \/
       exists p, fst (fst r) = ResultText p (derive p))) \/
     (evs = [CallPredict; CallExplain] /\
      exists p, fst (fst r) = ResultText p (derive p) /\
        (outs = [] \/
         exists e, outs = [String.append "SHAP calculation error: " (exn_str e)] /\
                   snd (fst r) = None /\ snd r = None))).
Proof.
  destruct w as [so fi ca]; cbn [stdout files calls].
  unfold predict_biogas; destruct (model g) as [m|].
  2:{ eexists; exists [], []; split; [cbn [stdout files calls]; rewrite ?app_nil_r, <- ?app_assoc; reflexivity|].
      left; repeat split; auto. }
  cbv beta iota zeta delta [catch bind lift ret call_predict call_explain
                             log_call print].
  destruct (select (input_data args) (feature_names g)) as [x|e];
    cbv beta iota zeta.
  2:{ eexists; exists [], []; split; [cbn [stdout files calls]; rewrite ?app_nil_r, <- ?app_assoc; reflexivity|].
      left; repeat split; simpl; eauto. }
  destruct (m x) as [p|e]; cbv beta iota zeta.
  2:{ eexists; exists [], [CallPredict]; split; [cbn [stdout files calls]; rewrite ?app_nil_r, <- ?app_assoc; reflexivity|].
      right; left; repeat split; simpl; eauto. }
  destruct (explainer g) as [ex|]; cbv beta iota zeta.
  2:{ eexists; exists [], [CallPredict]; split; [cbn [stdout files calls]; rewrite ?app_nil_r, <- ?app_assoc; reflexivity|].
      right; left; repeat split; simpl; eauto. }
  destruct (ex x) as [sv|e]; cbv beta iota zeta.
  2:{ eexists; exists [String.append "SHAP calculation error: " (exn_str e)],
        [CallPredict; CallExplain].
      split; [cbn [stdout files calls]; rewrite ?app_nil_r, <- ?app_assoc; reflexivity|].
      right; right; split; [reflexivity|]; eexists; split; [reflexivity|].
      right; eexists; repeat split. }
  destruct (shap_row sv) as [vals|e]; cbv beta iota zeta.
  - eexists; exists [], [CallPredict; CallExplain].
    split; [cbn [stdout files calls]; rewrite ?app_nil_r, <- ?app_assoc; reflexivity|].
    right; right; split; [reflexivity|]; eexists; split; [reflexivity|].
    left; reflexivity.
  - eexists; exists [String.append "SHAP calculation error: " (exn_str e)],
      [CallPredict; CallExplain].
    split; [cbn [stdout files calls]; rewrite ?app_nil_r, <- ?app_assoc; reflexivity|].
    right; right; split; [reflexivity|]; eexists; split; [reflexivity|].
    right; eexists; repeat split.
Qed.

(** X11: when the SHAP computation fails, because the explainer raises or
    returns an empty 2-d array, the prediction is still shown, both charts
    are missing, one "SHAP calculation error" line is printed, and the
    model and the explainer were each called once. *)
Theorem predict_biogas_shap_failure g m ex args x p e w :
  model g = Some m -> explainer g = Some ex ->
  select (input_data args) (feature_names g) = Ok x ->
  m x = Ok p ->
  (ex x = Raise e \/ exists sv, ex x = Ok sv /\ shap_row sv = Raise e) ->
  predict_biogas g args w =
    (Ok (ResultText p (derive p), None, None),
     mkWorld (stdout w ++ [String.append "SHAP calculation error: " (exn_str e)])
             (files w) (calls w ++ [CallPredict; CallExplain])).
Proof.
  intros Hm Hex Hs Hp Hfail.
  rewrite (predict_biogas_ready g m args w Hm), Hex.
  cbv beta iota zeta delta [catch bind lift ret call_predict call_explain
                             log_call print].
  rewrite Hs; cbv beta iota zeta; rewrite Hp; cbv beta iota zeta.
  destruct Hfail as [He|(sv & Hsv & Hr)].
  - rewrite He; cbv beta iota zeta; cbn [stdout files calls].
    rewrite <- app_assoc; reflexivity.
  - rewrite Hsv; cbv beta iota zeta; rewrite Hr; cbv beta iota zeta;
      cbn [stdout files calls].
    rewrite <- app_assoc; reflexivity.
Qed.

Definition g_empty_shap : globals :=
  mkGlobals (Some (fun _ => Ok 75.5%float)) input_names
            (Some (fun _ => Ok (Shap2 []))).

Lemma predict_biogas_shap_failure_witness :
  predict_biogas g_empty_shap args_ones w0 =
    (Ok (ResultText 75.5%float (derive 75.5%float), None, None),
     mkWorld ["SHAP calculation error: index 0 is out of bounds for axis 0 with size 0"] []
             [CallPredict; CallExplain]).
Proof.
  apply (predict_biogas_shap_failure g_empty_shap (fun _ => Ok 75.5%float)
           (fun _ => Ok (Shap2 [])) args_ones args_ones 75.5%float IndexError w0).
  - reflexivity.
  - reflexivity.
  - vm_compute; reflexivity.
  - reflexivity.
  - right; exists (Shap2 []); split; reflexivity.
Defined.

Lemma predict_biogas_charts g args w txt f1 f2 :
  fst (predict_biogas g args w) = Ok (txt, f1, f2) ->
  (f1 = None /\ f2 = None) \/
  exists items, f1 = Some (Waterfall items) /\ f2 = Some (bar_of items).
Proof.
  unfold predict_biogas; destruct (model g) as [m|].
  2:{ intros H; injection H as _ <- <-; auto. }
  cbv beta iota zeta delta [catch bind lift ret call_predict call_explain
                             log_call print].
  destruct (select (input_data args) (feature_names g)) as [x|e];
    cbv beta iota zeta.
  2:{ intros H; injection H as _ <- <-; auto. }
  destruct (m x) as [p|e]; cbv beta iota zeta.
  2:{ intros H; injection H as _ <- <-; auto. }
  destruct (explainer g) as [ex|]; cbv beta iota zeta.
  2:{ intros H; injection H as _ <- <-; auto. }
  destruct (ex x) as [sv|e]; cbv beta iota zeta.
  2:{ intros H; injection H as _ <- <-; auto. }
  destruct (shap_row sv) as [vals|e]; cbv beta iota zeta;
    intros H; injection H as _ <- <-; eauto.
Qed.

(** X12: the two charts are shown together or not at all, and the bar
    chart plots the features of the waterfall in the same order, each
    with the absolute value of its contribution, green exactly when the
    contribution is positive. *)
Theorem predict_biogas_charts_agree g args w txt f1 f2 :
  fst (predict_biogas g args w) = Ok (txt, f1, f2) ->
  (f1 = None /\ f2 = None) \/
  exists items bars,
    f1 = Some (Waterfall items) /\ f2 = Some (Bar bars) /\
    Forall2 (fun b it => fst (fst b) = fst it /\ snd (fst b) = Qabs (snd it) /\
                         (snd b = Green <-> 0 < snd it)) bars items.
Proof.
  intros H; destruct (predict_biogas_charts _ _ _ _ _ _ H) as [Hn|(items & H1 & H2)];
    [left; exact Hn|right].
  exists items, (map (fun it => (fst it, Qabs (snd it),
                                 if Qlt_le_dec 0 (snd it) then Green else Red)) items).
  split; [exact H1|]; split; [exact H2|].
  clear; induction items as [|it t IH]; simpl; constructor; auto.
  repeat split; destruct (Qlt_le_dec 0 (snd it)) as [Hlt|Hle]; auto;
    [discriminate|intros Hlt; exfalso; exact (Qle_not_lt _ _ Hle Hlt)].
Qed.

Lemma predict_biogas_charts_agree_witness :
  exists items bars,
    Some (Waterfall top_ties) = Some (Waterfall items) /\
    Some (bar_of top_ties) = Some (Bar bars) /\
    Forall2 (fun b it => fst (fst b) = fst it /\ snd (fst b) = Qabs (snd it) /\
                         (snd b = Green <-> 0 < snd it)) bars items.
Proof.
  destruct (predict_biogas_charts_agree g_explained args_ones w0
              (ResultText 80%float (derive 80%float))
              (Some (Waterfall top_ties)) (Some (bar_of top_ties)))
    as [(H & _)|H]; [vm_compute; reflexivity|discriminate|exact H].
Defined.








(** ** Error paths and effects of [batch_predict] *)

Lemma bind_ok {A B} (m : M A) (k : A -> M B) w a w' :
  m w = (Ok a, w') -> bind m k w = k a w'.
Proof. intros H; unfold bind; rewrite H; reflexivity. Qed.

Lemma bind_raise {A B} (m : M A) (k : A -> M B) w e w' :
  m w = (Raise e, w') -> bind m k w = (Raise e, w').
Proof. intros H; unfold bind; rewrite H; reflexivity. Qed.

Lemma calls_after_add w a b :
  calls_after (calls_after w a) b = calls_after w (a + b).
Proof.
  unfold calls_after; cbn [stdout files calls].
  rewrite repeat_app, app_assoc; reflexivity.
Qed.

Lemma predict_row_world m names cols r w :
  exists n, snd (predict_row m names cols r w) = calls_after w n.
Proof.
  unfold predict_row; cbv beta iota zeta delta [bind lift call_predict log_call].
  destruct (select (combine cols r) names) as [x|e]; cbv beta iota zeta.
  - exists 1%nat; destruct (m x); reflexivity.
  - exists 0%nat; unfold calls_after; rewrite app_nil_r; destruct w; reflexivity.
Qed.

Lemma mapM_predict_row_world m names cols rs w :
  exists n, snd (mapM (predict_row m names cols) rs w) = calls_after w n.
Proof.
  revert w; induction rs as [|r t IH]; intros w; simpl.
  - exists 0%nat; unfold ret, calls_after; rewrite app_nil_r; destruct w; reflexivity.
  - destruct (predict_row_world m names cols r w) as [n1 H1].
    unfold bind at 1.
    destruct (predict_row m names cols r w) as [[p|e] w1]; simpl in H1; subst w1.
    + destruct (IH (calls_after w n1)) as [n2 H2].
      unfold bind; destruct (mapM (predict_row m names cols) t (calls_after w n1))
        as [[ps|e] w2]; simpl in *; subst w2;
        exists (n1 + n2)%nat; apply calls_after_add.
    + exists n1; reflexivity.
Qed.

Lemma mapM_predict_row_fail m names cols pre r post e k w :
  Forall (fun r => exists x p, select (combine cols r) names = Ok x /\ m x = Ok p) pre ->
  ((select (combine cols r) names = Raise e /\ k = List.length pre) \/
   (exists x, select (combine cols r) names = Ok x /\ m x = Raise e /\
              k = S (List.length pre))) ->
  mapM (predict_row m names cols) (pre ++ r :: post) w = (Raise e, calls_after w k).
Proof.
  intros Hpre; revert k w; induction Hpre as [|r0 pre (x0 & p0 & Hs0 & Hp0) _ IH];
    intros k w Hr; simpl.
  - unfold bind at 1, predict_row.
    cbv beta iota zeta delta [bind lift call_predict log_call].
    destruct Hr as [(Hs & ->)|(x & Hs & He & ->)]; rewrite Hs; cbv beta iota zeta.
    + unfold calls_after; rewrite app_nil_r; destruct w; reflexivity.
    + rewrite He; reflexivity.
  - assert (H0 : predict_row m names cols r0 w = (Ok p0, calls_after w 1)).
    { unfold predict_row; cbv beta iota zeta delta [bind lift call_predict log_call].
      rewrite Hs0; cbv beta iota zeta; rewrite Hp0; reflexivity. }
    rewrite (bind_ok _ _ _ _ _ H0).
    destruct Hr as [(Hs & ->)|(x & Hs & He & ->)].
    + rewrite (bind_raise _ _ _ _ _ (IH (List.length pre) (calls_after w 1)
                                         (or_introl (conj Hs eq_refl)))).
      rewrite calls_after_add; reflexivity.
    + rewrite (bind_raise _ _ _ _ _ (IH (S (List.length pre)) (calls_after w 1)
                                         (or_intror (ex_intro _ x (conj Hs (conj He eq_refl)))))).
      rewrite calls_after_add; reflexivity.
Qed.

Lemma summarize_world n preds w : snd (summarize n preds w) = w.
Proof.
  unfold summarize; cbv beta iota zeta delta [bind lift ret].
  destruct (np_min preds), (np_max preds); reflexivity.
Qed.

Definition upload_unparsable : upload :=
  mkUpload (Raise (ParserError "Error tokenizing data. C error: Expected 18 fields in line 3, saw 19")).

(** X14: a file that [pd.read_csv] rejects is reported with the reader's
    message, without calling the model, writing a file or printing. *)
Theorem batch_predict_read_error g m f e w :
  model g = Some m -> read_result f = Raise e ->
  batch_predict g (Some f) w = (Ok (FileErrorMsg e, None), w).
Proof.
  intros Hm He; unfold batch_predict; rewrite Hm.
  cbv beta iota zeta delta [catch bind read_csv lift ret].
  rewrite He; reflexivity.
Qed.

Lemma batch_predict_read_error_witness :
  batch_predict (g_const 80%float) (Some upload_unparsable) w0 =
    (Ok (FileErrorMsg (ParserError "Error tokenizing data. C error: Expected 18 fields in line 3, saw 19"),
         None), w0).
Proof. apply (batch_predict_read_error _ (fun _ => Ok 80%float)); reflexivity. Defined.

(** A model that rejects rows containing a zero. *)
Definition model_rejecting_zero : predictor :=
  fun x => if existsb (fun v => PrimFloat.eqb v 0%float) x
           then Raise (LibraryError "zero input") else Ok 80%float.

Definition upload_zero_row : upload :=
  mkUpload (Ok (mkTable input_names
                  [repeat 1%float 18; repeat 0%float 18; repeat 1%float 18])).

(** X15: the rows are predicted one by one, and the first row whose
    selection or prediction raises aborts the batch: its exception is
    reported, the rows after it are never given to the model, and no
    output file is written. *)
Theorem batch_predict_row_failure g m f df pre r post e k w :
  model g = Some m -> read_result f = Ok df ->
  incl (feature_names g) (columns df) ->
  rows df = pre ++ r :: post ->
  Forall (fun r => exists x p,
              select (combine (columns df) r) (feature_names g) = Ok x /\
              m x = Ok p) pre ->
  ((select (combine (columns df) r) (feature_names g) = Raise e /\
    k = List.length pre) \/
   (exists x, select (combine (columns df) r) (feature_names g) = Ok x /\
              m x = Raise e /\ k = S (List.length pre))) ->
  batch_predict g (Some f) w = (Ok (FileErrorMsg e, None), calls_after w k).
Proof.
  intros Hm Hf Hincl Hrows Hpre Hr.
  rewrite (batch_predict_read g m f df w Hm Hf).
  apply missing_columns_nil in Hincl; rewrite Hincl.
  unfold catch; rewrite Hrows.
  rewrite (bind_raise _ _ _ _ _ (mapM_predict_row_fail _ _ _ _ _ _ _ _ w Hpre Hr)).
  reflexivity.
Qed.

Lemma batch_predict_row_failure_witness :
  batch_predict (mkGlobals (Some model_rejecting_zero) input_names None)
                (Some upload_zero_row) w0
    = (Ok (FileErrorMsg (LibraryError "zero input"), None), calls_after w0 2).
Proof.
  apply (batch_predict_row_failure _ model_rejecting_zero upload_zero_row
           (mkTable input_names
              [repeat 1%float 18; repeat 0%float 18; repeat 1%float 18])
           [repeat 1%float 18] (repeat 0%float 18) [repeat 1%float 18]).
  - reflexivity.
  - reflexivity.
  - intros n H; exact H.
  - reflexivity.
  - constructor; [|constructor].
    exists (repeat 1%float 18), 80%float; split; vm_compute; reflexivity.
  - right; exists (repeat 0%float 18); split; [vm_compute; reflexivity|].
    split; reflexivity.
Defined.

(** X16: the batch handler never raises and never prints; it only calls
    the model, and it returns a file exactly when it shows a summary, in
    which case it has written exactly one file, [biogas_predictions.csv];
    otherwise no file is written. *)
Theorem batch_predict_effects g file w :
  exists r out w',
    batch_predict g file w = (Ok (r, out), w') /\
    stdout w' = stdout w /\
    (exists n, calls w' = calls w ++ repeat CallPredict n) /\
    ((exists s, r = SummaryText s /\ out = Some output_file /\
                exists df, files w' = files w ++ [(output_file, df)]) \/
     ((forall s, r <> SummaryText s) /\ out = None /\ files w' = files w)).
Proof.
  assert (Hno : forall r, (forall s, r <> SummaryText s) ->
            exists r' out w', (Ok (r, None), w) = (Ok (r', out), w') /\
              stdout w' = stdout w /\
              (exists n, calls w' = calls w ++ repeat CallPredict n) /\
              ((exists s, r' = SummaryText s /\ out = Some output_file /\
                  exists df, files w' = files w ++ [(output_file, df)]) \/
               ((forall s, r' <> SummaryText s) /\ out = None /\ files w' = files w))).
  { intros r Hr; exists r, None, w; repeat split; [|right; auto].
    exists 0%nat; rewrite app_nil_r; reflexivity. }
  destruct (model g) as [m|] eqn:Hm.
  2:{ unfold batch_predict; rewrite Hm; apply Hno; discriminate. }
  destruct file as [f|].
  2:{ unfold batch_predict; rewrite Hm; apply Hno; discriminate. }
  destruct (read_result f) as [df|e] eqn:Hf.
  2:{ unfold batch_predict; rewrite Hm.
      cbv beta iota zeta delta [catch bind read_csv lift ret]; rewrite Hf.
      apply Hno; discriminate. }
  rewrite (batch_predict_read g m f df w Hm Hf).
  destruct (missing_columns (feature_names g) (columns df)) as [|c cs].
  2:{ apply Hno; discriminate. }
  unfold catch.
  destruct (mapM_predict_row_world m (feature_names g) (columns df) (rows df) w)
    as [n Hn].
  destruct (mapM (predict_row m (feature_names g) (columns df)) (rows df) w)
    as [[preds|e] w1] eqn:Hmap; simpl in Hn; subst w1.
  2:{ rewrite (bind_raise _ _ _ _ _ Hmap); cbv beta iota.
      exists (FileErrorMsg e), None, (calls_after w n); repeat split;
        [exists n; reflexivity|right; split; [discriminate|auto]]. }
  rewrite (bind_ok _ _ _ _ _ Hmap); cbv beta zeta.
  pose proof (summarize_world (List.length (rows (assign_column df prediction_column preds)))
                              preds (calls_after w n)) as Hs.
  destruct (summarize (List.length (rows (assign_column df prediction_column preds)))
                      preds (calls_after w n)) as [[s|e] w2] eqn:Hsum;
    simpl in Hs; subst w2.
  - rewrite (bind_ok _ _ _ _ _ Hsum).
    exists (SummaryText s), (Some output_file),
      (mkWorld (stdout w) (files w ++ [(output_file, assign_column df prediction_column preds)])
               (calls w ++ repeat CallPredict n)).
    repeat split; [exists n; reflexivity|left; exists s; repeat split; eexists; reflexivity].
  - rewrite (bind_raise _ _ _ _ _ Hsum); cbv beta iota.
    exists (FileErrorMsg e), None, (calls_after w n); repeat split;
      [exists n; reflexivity|right; split; [discriminate|auto]].
Qed.
